(** * mx: process execution, content fetching and file materialization

    A shallow embedding of the core of [mx.py] (class [Env]) and of the
    Checkstyle batching loop of [commands.py] ([check]).

    The Python code is effectful: it prints, spawns child processes, opens
    URLs and reads and writes files.  Those effects are threaded through an
    explicit [State]; exceptions are values of type [exn].  Everything the
    host decides (does a URL answer, what does a child print, may a file be
    opened) is an oracle field of its [Host]. *)

From Stdlib Require Import ZArith String Ascii List Lia Bool.
From stdpp Require Import base option list strings pretty gmap.

Local Open Scope Z_scope.

(** ** Python string primitives used by the sources *)

Module Py.

(** [s.startswith(p)] *)
Definition startswith (s p : string) : bool := String.prefix p s.

(** [s.find(sub)]: [None] stands for Python's [-1]. *)
Definition find (s sub : string) : option nat := String.index 0 sub s.

(** [s[n:]] *)
Fixpoint drop_chars (n : nat) (s : string) : string :=
  match n, s with
  | O, _ => s
  | S n', String _ s' => drop_chars n' s'
  | S _, EmptyString => EmptyString
  end.

(** [s[:n]] *)
Fixpoint take_chars (n : nat) (s : string) : string :=
  match n, s with
  | O, _ => EmptyString
  | S n', String c s' => String c (take_chars n' s')
  | S _, EmptyString => EmptyString
  end.

(** [s.partition(sep)]: the parts before and after the first [sep]; the
    whole string and the empty string when [sep] does not occur. *)
Definition partition (s sep : string) : string * string :=
  match find s sep with
  | Some i => (take_chars i s, drop_chars (i + String.length sep) s)
  | None => (s, EmptyString)
  end.

(** [s.lstrip(c)] for a one-character set. *)
Fixpoint lstrip (c : ascii) (s : string) : string :=
  match s with
  | String a s' => if Ascii.eqb a c then lstrip c s' else s
  | EmptyString => EmptyString
  end.

(** [sep.join(l)] *)
Definition join (sep : string) (l : list string) : string := String.concat sep l.

(** [s.split()]: split on runs of white space. *)
Definition split (s : string) : list string := String.words s.

(** [len(s)] *)
Definition len (s : string) : Z := Z.of_nat (String.length s).


(** The double-quote and newline characters, as they occur in the
    sources' literals. *)
Definition dquote : string := String "034"%char EmptyString.
Definition nl : string := String "010"%char EmptyString.

(** [posixpath]: [p[:p.rfind('/') + 1]] *)
Fixpoint head_of_path (p : string) : string :=
  match p with
  | EmptyString => EmptyString
  | String c p' =>
      match head_of_path p' with
      | EmptyString => if Ascii.eqb c "/" then String c EmptyString else EmptyString
      | h => String c h
      end
  end.

(** [s.rstrip('/')] *)
Fixpoint rstrip_slash (s : string) : string :=
  match s with
  | EmptyString => EmptyString
  | String c s' =>
      match rstrip_slash s' with
      | EmptyString => if Ascii.eqb c "/" then EmptyString else String c EmptyString
      | r => String c r
      end
  end.

(** [posixpath.dirname]: the head, without its trailing slashes unless
    it consists of slashes only. *)
Definition dirname (p : string) : string :=
  let head := head_of_path p in
  match rstrip_slash head with
  | EmptyString => head
  | stripped => stripped
  end.

Fixpoint endswith_slash (s : string) : bool :=
  match s with
  | EmptyString => false
  | String c EmptyString => Ascii.eqb c "/"
  | String _ s' => endswith_slash s'
  end.

(** [posixpath.join(a, b)] *)
Definition path_join (a b : string) : string :=
  if startswith b "/" then b
  else if (String.eqb a EmptyString || endswith_slash a)%bool then (a +:+ b)
  else (a +:+ "/" +:+ b).

End Py.

(** ** The Checkstyle batching loop ([commands.py], [check]) *)

Module Batch.

(** The inner [while i < len(javafilelist)] loop, started at index [i]
    with running total [size]; [rest] is [javafilelist[i:]].  The result
    is how far [i] advances before the loop stops. *)
Fixpoint scan (limit : Z) (rest : list string) (size : Z) : nat :=
  match rest with
  | [] => O
  | name :: rest' =>
      let s := Py.len name + 1 in
      if size + s <? limit then S (scan limit rest' (size + s)) else O
  end.

(** One turn of the outer loop: [batch = javafilelist[:i]] and
    [javafilelist = javafilelist[i:]]. *)
Definition batch_step (limit : Z) (javafilelist : list string)
  : list string * list string :=
  let i := scan limit javafilelist 0 in
  (take i javafilelist, drop i javafilelist).

(** The outer [while len(javafilelist) != 0] loop, as the sequence of
    batches it hands to Checkstyle.  The loop has no variant in the
    source, so the model is fuelled: [None] means the loop is still
    running after [fuel] turns. *)
Fixpoint batches (fuel : nat) (limit : Z) (javafilelist : list string)
  : option (list (list string)) :=
  match javafilelist with
  | [] => Some []
  | _ :: _ =>
      match fuel with
      | O => None
      | S fuel' =>
          let '(batch, rest) := batch_step limit javafilelist in
          cons batch <$> batches fuel' limit rest
      end
  end.



(** Serialized size of a batch: the sum of [len(item) + 1]. *)
Definition weight (batch : list string) : Z :=
  fold_right (fun name acc => Py.len name + 1 + acc) 0 batch.

Definition fits (limit : Z) (name : string) : Prop := Py.len name + 1 < limit.

#[global] Instance fits_dec limit name : Decision (fits limit name).
Proof. unfold fits. apply _. Defined.

End Batch.

(** ** The launcher ([mx.py], class [Env]) *)

Module Mx.

(** *** Exceptions *)

(** The argument of [SystemExit]: [abort] receives an exit status or a
    message. *)
Inductive exit_arg :=
| ExitCode (status : Z)
| ExitMsg (msg : string).

(** [CalledProcessError.cmd] is the argument list when raised by
    [subprocess.check_output]/[check_call] and the joined command line
    when raised by [Env.run]. *)
Inductive pycmd :=
| CmdList (args : list string)
| CmdStr (line : string).

Inductive exn :=
| SystemExit (arg : exit_arg)
| CalledProcessError (returncode : Z) (cmd : pycmd) (output : option string)
| OSError (errno : Z) (strerror : string)
| IOError (str : string)
| BadZipfile (str : string)
| KeyError (key : string)
| ValueError (str : string)
| TypeError
| AttributeError
| AssertionError
| IndexError.


(** *** The attributes of [Env] that the modelled methods use *)

(** [java_args] is the raw option string until [init_java] replaces it
    by its tokens. *)
Inductive vm_args :=
| Raw (s : string)
| Tokens (l : list string).

Record Env := mkEnv {
  verbose : bool;
  java_dbg : bool;
  java : string;
  javac : string;
  java_args : vm_args;
  java_args_pfx : list string;
  java_args_sfx : list string;
  java_initialized : bool
}.

Definition DEFAULT_JAVA_ARGS : string := "-ea -Xss2m -Xmx1g".

(** *** The host *)

Inductive event :=
| Exec (args : list string) (cwd : option string)
| UrlOpen (url : string)
| FileRead (path : string)
| FileWrite (path content : string)
| MakeDirs (path : string).

(** What a child process does: it cannot be started ([OSError]), or it
    runs to completion with a return code, its combined standard output
    and error, and the files it leaves behind. *)
Inductive child :=
| NotStarted (errno : Z) (strerror : string)
| Exited (returncode : Z) (output : string)
         (effect : gmap string string → gmap string string).

(** What [urllib2.urlopen(req)] followed by [f.read()] gives: an
    exception from either call, or the whole body. *)
Inductive response :=
| Fails (e : exn)
| Body (data : string).

(** The oracles: all that the operating system and the network decide.
    Children and URLs may answer differently over time, so those two see
    the events so far. *)
Record Host := mkHost {
  spawn : list event → list string → option string → child;
  urlopen : list event → string → response;
  may_read : string → bool;
  may_write : string → bool;
  may_mkdir : string → bool;
  getmtime : string → option Z;
  mx_dir : string                       (* [dirname(__file__)] *)
}.

(** The state of the running script: [self], the file system, what the
    script printed, and the events so far. *)
Record State := mkState {
  self : Env;
  files : gmap string string;
  dirs : gset string;
  console : list string;
  trace : list event;
  host : Host
}.

Definition set_self (e : Env) (st : State) : State :=
  mkState e (files st) (dirs st) (console st) (trace st) (host st).
Definition set_files (f : gmap string string) (st : State) : State :=
  mkState (self st) f (dirs st) (console st) (trace st) (host st).
Definition set_dirs (d : gset string) (st : State) : State :=
  mkState (self st) (files st) d (console st) (trace st) (host st).
Definition print (line : string) (st : State) : State :=
  mkState (self st) (files st) (dirs st) (console st ++ [line]) (trace st) (host st).
Definition record (ev : event) (st : State) : State :=
  mkState (self st) (files st) (dirs st) (console st) (trace st ++ [ev]) (host st).

(** *** The monad of script actions *)

Inductive outcome (A : Type) :=
| Return (a : A)
| Raise (e : exn).
Arguments Return {A} a.
Arguments Raise {A} e.

Definition M (A : Type) : Type := State → outcome A * State.

Definition ret {A} (a : A) : M A := λ st, (Return a, st).
Definition raise {A} (e : exn) : M A := λ st, (Raise e, st).
Definition bind {A B} (m : M A) (k : A → M B) : M B :=
  λ st, match m st with
        | (Return a, st') => k a st'
        | (Raise e, st') => (Raise e, st')
        end.

#[global] Instance M_ret : MRet M := @ret.
#[global] Instance M_bind : MBind M := λ A B k m, bind m k.

(** [try: m except ...: h]: the handler chooses the exceptions it
    catches; the others propagate. *)
Definition catch {A} (m : M A) (h : exn → option (M A)) : M A :=
  λ st, match m st with
        | (Return a, st') => (Return a, st')
        | (Raise e, st') =>
            match h e with
            | Some k => k st'
            | None => (Raise e, st')
            end
        end.

Definition get {A} (f : State → A) : M A := λ st, (Return (f st), st).
Definition modify (f : State → State) : M unit := λ st, (Return tt, f st).
Definition when (b : bool) (m : M unit) : M unit := if b then m else ret tt.

(** *** Console, exit and file-system primitives *)

(** [Env.log(msg)] *)
Definition log (msg : string) : M unit := modify (print msg).

(** [Env.abort(codeOrMessage)] *)
Definition abort {A} (codeOrMessage : exit_arg) : M A :=
  raise (SystemExit codeOrMessage).

(** [os.path.exists(path)] *)
Definition path_exists (path : string) : M bool :=
  get (λ st, bool_decide (is_Some (files st !! path)) || bool_decide (path ∈ dirs st)).

(** [with open(path) as f: f.read()] *)
Definition read_file (path : string) : M string :=
  λ st, let st' := record (FileRead path) st in
        if may_read (host st) path then
          match files st !! path with
          | Some data => (Return data, st')
          | None =>
              if bool_decide (path ∈ dirs st) then
                (Raise (IOError ("[Errno 21] Is a directory: '" +:+ path +:+ "'")), st')
              else
                (Raise (IOError ("[Errno 2] No such file or directory: '" +:+ path +:+ "'")), st')
          end
        else (Raise (IOError ("[Errno 13] Permission denied: '" +:+ path +:+ "'")), st').

(** [with open(path, 'w') as f: f.write(data)] *)
Definition write_file (path data : string) : M unit :=
  λ st, if may_write (host st) path && negb (bool_decide (path ∈ dirs st)) then
          (Return tt, set_files (<[path := data]> (files st)) (record (FileWrite path data) st))
        else (Raise (IOError ("[Errno 13] Permission denied: '" +:+ path +:+ "'")), st).

(** The directories [os.makedirs(d)] leaves behind: [d] and the chain of
    its [dirname]s. *)
Fixpoint with_parents (fuel : nat) (d : string) : gset string :=
  match fuel with
  | O => ∅
  | S fuel' =>
      if String.eqb d EmptyString then ∅
      else {[ d ]} ∪ (if String.eqb (Py.dirname d) d then ∅ else with_parents fuel' (Py.dirname d))
  end.

(** [os.makedirs(d)] *)
Definition makedirs (d : string) : M unit :=
  λ st, if may_mkdir (host st) d then
          (Return tt, set_dirs (with_parents (String.length d) d ∪ dirs st) (record (MakeDirs d) st))
        else (Raise (OSError 13 "Permission denied"), record (MakeDirs d) st).

(** [os.path.getmtime(path)] *)
Definition path_getmtime (path : string) : M Z :=
  λ st, match getmtime (host st) path with
        | Some t => (Return t, st)
        | None => (Raise (OSError 2 "No such file or directory"), st)
        end.

(** *** Child processes *)

(** Start a child and wait for it: [subprocess.Popen(...)] followed by
    [wait()] or [communicate()]. *)
Definition popen_wait (args : list string) (cwd : option string) : M (Z * string) :=
  λ st, let st' := record (Exec args cwd) st in
        match spawn (host st) (trace st) args cwd with
        | NotStarted errno strerror => (Raise (OSError errno strerror), st')
        | Exited returncode output effect =>
            (Return (returncode, output), set_files (effect (files st)) st')
        end.

(** [subprocess.call(args, cwd=cwd)] *)
Definition subprocess_call (args : list string) (cwd : option string) : M Z :=
  r ← popen_wait args cwd; mret (fst r).

(** [subprocess.check_output(args, stderr=subprocess.STDOUT)] *)
Definition check_output (args : list string) : M string :=
  r ← popen_wait args None;
  if fst r =? 0 then mret (snd r)
  else raise (CalledProcessError (fst r) (CmdList args) (Some (snd r))).

(** [subprocess.check_call(args)] *)
Definition check_call (args : list string) : M unit :=
  r ← popen_wait args None;
  if fst r =? 0 then mret tt
  else raise (CalledProcessError (fst r) (CmdList args) None).

(** A line consumer, the [out] and [err] arguments of [run]. *)
Definition sink : Type := string → State → State.

(** [str(e)] for an [OSError]. *)
Definition str_OSError (errno : Z) (strerror : string) : string :=
  ("[Errno " +:+ pretty errno +:+ "] " +:+ strerror).

(** [Env.run].  With a sink the child is started by [Popen] (which is
    not given [cwd]) and each captured stream is drained by a daemon
    thread of its own; the main thread only waits for the child.  What
    the workers deliver is not part of this sequential model: see
    [redirect] for one worker. *)
Definition run (args : list string) (nonZeroIsFatal : bool)
    (out err : option sink) (cwd : option string) : M Z :=
  v ← get (λ st, verbose (self st));
  when v (log (Py.join " " args));;
  retcode ← catch
    (match out, err with
     | None, None => subprocess_call args cwd
     | _, _ => r ← popen_wait args None; mret (fst r)
     end)
    (λ e, match e with
          | OSError errno strerror => Some (
              log ("Error executing '" +:+ Py.join " " args +:+ "': "
                     +:+ str_OSError errno strerror);;
              v' ← get (λ st, verbose (self st));
              if v' : bool then raise e else abort (ExitCode errno))
          | _ => None
          end);
  if negb (retcode =? 0) && nonZeroIsFatal then
    v' ← get (λ st, verbose (self st));
    if v' : bool then raise (CalledProcessError retcode (CmdStr (Py.join " " args)) None)
    else abort (ExitCode retcode)
  else mret retcode.

(** [file.readline()] on the rest of a stream: the line with its
    terminator, and what follows. *)
Fixpoint readline (stream : string) : string * string :=
  match stream with
  | EmptyString => (EmptyString, EmptyString)
  | String c rest =>
      if Ascii.eqb c "010" then (String c EmptyString, rest)
      else let '(line, rest') := readline rest in (String c line, rest')
  end.

(** The worker [redirect(stream, f)] nested in [run]:
    [for line in iter(stream.readline, ''): f(line)].  The stream is
    what the child writes until it closes its end; [fuel] bounds the
    number of lines. *)
Fixpoint redirect (fuel : nat) (stream : string) (f : sink) (st : State) : State :=
  match fuel with
  | O => st
  | S fuel' =>
      let '(line, rest) := readline stream in
      if String.eqb line EmptyString then st
      else redirect fuel' rest f (f line st)
  end.

(** *** Lazy initialization of the Java command ([init_java]) *)

Definition set_java_args (a : vm_args) (e : Env) : Env :=
  mkEnv (verbose e) (java_dbg e) (java e) (javac e) a
        (java_args_pfx e) (java_args_sfx e) (java_initialized e).
Definition set_java_args_pfx (l : list string) (e : Env) : Env :=
  mkEnv (verbose e) (java_dbg e) (java e) (javac e) (java_args e)
        l (java_args_sfx e) (java_initialized e).
Definition set_java_args_sfx (l : list string) (e : Env) : Env :=
  mkEnv (verbose e) (java_dbg e) (java e) (javac e) (java_args e)
        (java_args_pfx e) l (java_initialized e).
Definition set_java_initialized (b : bool) (e : Env) : Env :=
  mkEnv (verbose e) (java_dbg e) (java e) (javac e) (java_args e)
        (java_args_pfx e) (java_args_sfx e) b.

(** [self.attr = v] *)
Definition assign (f : Env → Env) : M unit := modify (λ st, set_self (f (self st)) st).

(** [self.java_args] where a list is needed. *)
Definition java_args_list : M (list string) :=
  a ← get (λ st, java_args (self st));
  match a with
  | Tokens l => mret l
  | Raw _ => raise TypeError
  end.

(** [output[i]] *)
Definition item (l : list string) (i : nat) : M string :=
  match l !! i with
  | Some x => mret x
  | None => raise IndexError
  end.

(** [assert b] *)
Definition pyassert (b : bool) : M unit :=
  if b then mret tt else raise AssertionError.

Definition d64_probe (java : string) : list string := [java; "-d64"; "-version"].
Definition plain_probe (java : string) : list string := [java; "-version"].
Definition debug_args : list string :=
  ["-Xdebug"; "-Xrunjdwp:transport=dt_socket,server=y,suspend=y,address=8000"].

(** The version test of [init_java]; the token printed by
    [java -version] opens with a double quote. *)
Definition version_accepted (version : string) : bool :=
  Py.startswith version (Py.dquote +:+ "1.6")
  || Py.startswith version (Py.dquote +:+ "1.7").

Definition version_message (version : string) : string :=
  ("Requires Java version 1.6 or 1.7, got version " +:+ version).

Section Library.

(** [shlex.split]: the tokens, or the message of its [ValueError]. *)
Variable shlex_split : string → string + list string.

(** [zipfile.ZipFile(StringIO(data), 'r')]: the entries by name, or
    the message of [BadZipfile]. *)
Variable ZipFile : string → string + gmap string string.

(** The nested [delAtAndSplit(s)]: [shlex.split(s.lstrip('@'))] *)
Definition delAtAndSplit (s : string) : M (list string) :=
  match shlex_split (Py.lstrip "@" s) with
  | inr tokens => mret tokens
  | inl msg => raise (ValueError msg)
  end.

(** [sum(map(delAtAndSplit, l), [])] *)
Fixpoint split_all (l : list string) : M (list string) :=
  match l with
  | [] => mret []
  | s :: l' => t ← delAtAndSplit s; ts ← split_all l'; mret (t ++ ts)
  end.

(** [init_java], the three assignments that replace the raw
    option strings by their tokens. *)
Definition split_vm_args : M unit :=
  a ← get (λ st, java_args (self st));
  tokens ← match a with
           | Raw s => delAtAndSplit s
           | Tokens _ => raise AttributeError
           end;
  assign (set_java_args (Tokens tokens));;
  pfx ← get (λ st, java_args_pfx (self st));
  pfx' ← split_all pfx;
  assign (set_java_args_pfx pfx');;
  sfx ← get (λ st, java_args_sfx (self st));
  sfx' ← split_all sfx;
  assign (set_java_args_sfx sfx').

(** [init_java], the nested [try] statements: the [-d64] probe,
    and the plain probe when the first exits non-zero.  The result is
    the captured output of the probe that succeeded. *)
Definition probe_version : M string :=
  jv ← get (λ st, java (self st));
  catch
    (output ← check_output (d64_probe jv);
     l ← java_args_list;
     assign (set_java_args (Tokens ("-d64" :: l)));;
     mret output)
    (λ e, match e with
          | CalledProcessError _ _ _ => Some (
              catch (check_output (plain_probe jv))
                (λ e', match e' with
                       | CalledProcessError returncode _ e_output => Some (
                           log (default "None" e_output);;
                           abort (ExitCode returncode))
                       | _ => None
                       end))
          | _ => None
          end).

(** [init_java], from [output = output.split()] to the version
    test. *)
Definition check_version (output : string) : M unit :=
  let output := Py.split output in
  o0 ← item output 0;
  pyassert (String.eqb o0 "java" || String.eqb o0 "openjdk");;
  o1 ← item output 1;
  pyassert (String.eqb o1 "version");;
  version ← item output 2;
  when (negb (version_accepted version)) (abort (ExitMsg (version_message version))).

(** The body of [init_java] below the [java_initialized] test. *)
Definition init_java_body : M unit :=
  split_vm_args;;
  output ← probe_version;
  check_version output;;
  dbg ← get (λ st, java_dbg (self st));
  when dbg (l ← java_args_list; assign (set_java_args (Tokens (l ++ debug_args))));;
  assign (set_java_initialized true).

(** [Env.init_java] *)
Definition init_java : M unit :=
  initialized ← get (λ st, java_initialized (self st));
  if initialized : bool then mret tt else init_java_body.

(** The list that [format_java_cmd] returns. *)
Definition java_cmd (args : list string) : M (list string) :=
  jv ← get (λ st, java (self st));
  pfx ← get (λ st, java_args_pfx (self st));
  l ← java_args_list;
  sfx ← get (λ st, java_args_sfx (self st));
  mret ([jv] ++ pfx ++ l ++ sfx ++ args).

(** [Env.format_java_cmd] *)
Definition format_java_cmd (args : list string) : M (list string) :=
  init_java;;
  java_cmd args.

(** [Env.run_java] *)
Definition run_java (args : list string) (nonZeroIsFatal : bool)
    (out err : option sink) (cwd : option string) : M Z :=
  cmd ← format_java_cmd args;
  run cmd nonZeroIsFatal out err cwd.

(** *** Content fetching ([download]) *)

(** The nested [url_open(url)]: the response as a stream, of which
    the model keeps the unread rest.  A failure of the connection or
    of the transfer is raised here. *)
Definition url_open (url : string) : M string :=
  λ st, let st' := record (UrlOpen url) st in
        match urlopen (host st) (trace st) url with
        | Fails e => (Raise e, st')
        | Body data => (Return data, st')
        end.

(** [f.read()]: everything not read yet; nothing is left after it. *)
Definition read (f : string) : string * string := (f, EmptyString).

(** The two [except] clauses of the loop; [url] is the variable as
    bound when the exception is raised. *)
Definition on_fetch_error (url : string) (e : exn) : option (M bool) :=
  match e with
  | IOError str =>
      Some (log ("Error reading from " +:+ url +:+ ": " +:+ str);; mret false)
  | BadZipfile str =>
      Some (log ("Error in zip file downloaded from " +:+ url +:+ ": " +:+ str);;
            mret false)
  | _ => None
  end.

Definition no_separator_message (url : string) : string :=
  "Zip or jar URL does not contain " +:+ Py.dquote +:+ "!/" +:+ Py.dquote +:+ ": " +:+ url.

(** The archive branch from the rebinding of [url] on. *)
Definition fetch_entry (path url entry : string) : M bool :=
  f ← url_open url;
  let '(data, f) := read f in
  let '(zipdata, f) := read f in
  match ZipFile zipdata with
  | inl str => raise (BadZipfile str)
  | inr zf =>
      match zf !! entry with
      | Some data => write_file path data;; mret true
      | None => raise (KeyError entry)
      end
  end.

(** The plain branch. *)
Definition fetch_plain (path url : string) : M bool :=
  f ← url_open url;
  let '(data, f) := read f in
  write_file path data;; mret true.

(** One turn of [for url in urls]: [true] when the turn reaches
    [return], [false] when an [except] clause logged the error and the
    loop goes on.  Within the archive branch the handlers see the
    rebound [url]. *)
Definition attempt (path url : string) : M bool :=
  catch
    (log ("Downloading " +:+ url +:+ " to " +:+ path);;
     if Py.startswith url "zip:" || Py.startswith url "jar:" then
       when (bool_decide (Py.find url "!/" = None))
            (abort (ExitMsg (no_separator_message url)));;
       let '(url', entry) := Py.partition (Py.drop_chars 4 url) "!/" in
       catch (fetch_entry path url' entry) (on_fetch_error url')
     else fetch_plain path url)
    (on_fetch_error url).

Definition could_not_download (path : string) (urls : list string) : string :=
  "Could not download to " +:+ path +:+ " from any of the following URLs:"
    +:+ Py.nl +:+ Py.nl +:+ "    " +:+ Py.join (Py.nl +:+ "    ") urls
    +:+ Py.nl +:+ Py.nl +:+ "Please use a web browser to do the download manually".

(** Below the loop, first part: compile the Java helper when its
    class file is missing or older than its source. *)
Definition ensure_helper : M unit :=
  myDir ← get (λ st, mx_dir (host st));
  let javaSource := Py.path_join myDir "URLConnectionDownload.java" in
  let javaClass := Py.path_join myDir "URLConnectionDownload.class" in
  present ← path_exists javaClass;
  stale ← (if present : bool then
             tc ← path_getmtime javaClass;
             ts ← path_getmtime javaSource;
             mret (tc <? ts)
           else mret true);
  jc ← get (λ st, javac (self st));
  when stale (check_call [jc; "-d"; myDir; javaSource]).

(** The command line of the helper. *)
Definition helper_cmd (st : State) (path : string) (urls : list string) : list string :=
  [java (self st); "-cp"; mx_dir (host st); "URLConnectionDownload"; path] ++ urls.

(** Below the loop: run the helper on [path] and [urls]. *)
Definition delegate (path : string) (urls : list string) : M unit :=
  ensure_helper;;
  cmd ← get (λ st, helper_cmd st path urls);
  rc ← run cmd true None None None;
  when (negb (rc =? 0)) (abort (ExitMsg (could_not_download path urls))).

(** [for url in urls: ...] followed by the code below the loop;
    [all] is the whole list. *)
Fixpoint fetch_from (path : string) (all urls : list string) : M unit :=
  match urls with
  | [] => delegate path all
  | url :: urls' =>
      done ← attempt path url;
      if done : bool then mret tt else fetch_from path all urls'
  end.

(** The first lines of [download]: create the directory of [path]
    when it is missing. *)
Definition ensure_parent (path : string) : M unit :=
  let d := Py.dirname path in
  present ← path_exists d;
  when (negb (String.eqb d EmptyString) && negb present) (makedirs d).

(** [Env.download] *)
Definition download (path : string) (urls : list string) : M unit :=
  ensure_parent path;;
  fetch_from path urls urls.

End Library.

(** *** File materialization ([update_file]) *)

(** [Env.update_file] *)
Definition update_file (path content : string) : M bool :=
  existed ← path_exists path;
  catch
    (old ← (if existed : bool then data ← read_file path; mret (Some data)
            else mret None);
     if bool_decide (old = Some content) then mret false
     else
       write_file path content;;
       log ((if existed : bool then "modified " else "created ") +:+ path);;
       mret true)
    (λ e, match e with
          | IOError str =>
              Some (abort (ExitMsg ("Error while writing to " +:+ path +:+ ": " +:+ str)))
          | _ => None
          end).

End Mx.

(** ** Vocabulary of the statements *)

Module Obs.
Import Mx.

(** The working directory [run] gives the child: [cwd] reaches
    [subprocess.call] only. *)
Definition run_cwd (out err : option sink) (cwd : option string) : option string :=
  match out, err with
  | None, None => cwd
  | _, _ => None
  end.

(** What the host answers when [run] starts [args] in state [st]. *)
Definition run_child (st : State) (args : list string)
    (out err : option sink) (cwd : option string) : child :=
  spawn (host st) (trace st) args (run_cwd out err cwd).

(** The state once [run] has (in verbose mode) logged the command
    line. *)
Definition announced (args : list string) (st : State) : State :=
  if verbose (self st) then print (Py.join " " args) st else st.

(** The state once the child started by [run] has exited. *)
Definition spawned (args : list string) (out err : option sink) (cwd : option string)
    (effect : gmap string string → gmap string string) (st : State) : State :=
  let st1 := announced args st in
  set_files (effect (files st1)) (record (Exec args (run_cwd out err cwd)) st1).

(** The state once a child started by [check_output] or [check_call]
    has exited. *)
Definition after_child (args : list string)
    (effect : gmap string string → gmap string string) (st : State) : State :=
  set_files (effect (files st)) (record (Exec args None) st).

(** The number of writes among the events. *)
Definition is_write (ev : event) : bool :=
  match ev with
  | FileWrite _ _ => true
  | _ => false
  end.
Definition writes (st : State) : nat := length (filter is_write (trace st)).

(** A call of one of the helpers that format or run a Java command. *)
Inductive java_call :=
| FormatJavaCmd (args : list string)
| RunJava (args : list string) (nonZeroIsFatal : bool)
          (out err : option sink) (cwd : option string).

(** The helpers with the call of [init_java] left out. *)
Definition perform_ready (c : java_call) : M unit :=
  match c with
  | FormatJavaCmd args => java_cmd args ≫= λ _, mret tt
  | RunJava args nonZeroIsFatal out err cwd =>
      (cmd ← java_cmd args; run cmd nonZeroIsFatal out err cwd) ≫= λ _, mret tt
  end.

Fixpoint perform_all_ready (cs : list java_call) : M unit :=
  match cs with
  | [] => mret tt
  | c :: cs' => perform_ready c;; perform_all_ready cs'
  end.

Section Calls.
Variable shlex_split : string → string + list string.

(** The helpers as they are, called one after the other. *)
Definition perform (c : java_call) : M unit :=
  match c with
  | FormatJavaCmd args => format_java_cmd shlex_split args ≫= λ _, mret tt
  | RunJava args nonZeroIsFatal out err cwd =>
      run_java shlex_split args nonZeroIsFatal out err cwd ≫= λ _, mret tt
  end.

Fixpoint perform_all (cs : list java_call) : M unit :=
  match cs with
  | [] => mret tt
  | c :: cs' => perform c;; perform_all cs'
  end.
End Calls.

(** The command line of a Java call once [init_java] has run. *)
Definition ready_cmd (e : Env) (args : list string) : list string :=
  [java e] ++ java_args_pfx e
    ++ match java_args e with Tokens l => l | Raw _ => [] end
    ++ java_args_sfx e ++ args.

(** The children asked for by a sequence of calls: one per [RunJava]. *)
Fixpoint commands (e : Env) (cs : list java_call) : list event :=
  match cs with
  | [] => []
  | FormatJavaCmd _ :: cs' => commands e cs'
  | RunJava args _ out err cwd :: cs' =>
      Exec (ready_cmd e args) (run_cwd out err cwd) :: commands e cs'
  end.

(** [st'] differs from [st] in the tokenized options at most. *)
Definition keeps_flags (st st' : State) : Prop :=
  st' = set_self (self st') st
  ∧ java_initialized (self st') = java_initialized (self st)
  ∧ java (self st') = java (self st)
  ∧ java_dbg (self st') = java_dbg (self st)
  ∧ verbose (self st') = verbose (self st).

Section Fetch.
Variable ZipFile : string → string + gmap string string.

(** Every locator of [pre] is tried from [st] and fails in a way the
    loop recovers from; the result is the state after the last. *)
Fixpoint skip (path : string) (pre : list string) (st : State) : option State :=
  match pre with
  | [] => Some st
  | url :: pre' =>
      match attempt ZipFile path url st with
      | (Return false, st') => skip path pre' st'
      | _ => None
      end
  end.
End Fetch.

(** The state once a turn of the fetch loop has logged its locator. *)
Definition downloading (path url : string) (st : State) : State :=
  print ("Downloading " +:+ url +:+ " to " +:+ path) st.

(** The line an [except] clause of the fetch loop logs. *)
Definition error_line (url : string) (e : exn) : string :=
  match e with
  | IOError str => "Error reading from " +:+ url +:+ ": " +:+ str
  | BadZipfile str => "Error in zip file downloaded from " +:+ url +:+ ": " +:+ str
  | _ => EmptyString
  end.

(** The state once a turn of the fetch loop has opened [opened] for the
    locator [url] and logged the error [e]. *)
Definition gave_up (path url opened : string) (e : exn) (st : State) : State :=
  print (error_line opened e) (record (UrlOpen opened) (downloading path url st)).

(** The state once a turn of the fetch loop has written [data]. *)
Definition fetched (path url opened data : string) (st : State) : State :=
  let st1 := record (UrlOpen opened) (downloading path url st) in
  set_files (<[path := data]> (files st1)) (record (FileWrite path data) st1).

(** A locator that opens with [zip:] or [jar:]. *)
Definition archive_scheme (url : string) : bool :=
  Py.startswith url "zip:" || Py.startswith url "jar:".

(** The two [except] clauses of the fetch loop name these. *)
Definition recoverable (e : exn) : Prop :=
  match e with
  | IOError _ | BadZipfile _ => True
  | _ => False
  end.

(** The events [init_java] may add: nothing, the [-d64] probe, or the
    [-d64] probe followed by the plain one. *)
Definition probe_events (java : string) (evs : list event) : Prop :=
  evs = []
  ∨ evs = [Exec (d64_probe java) None]
  ∨ evs = [Exec (d64_probe java) None; Exec (plain_probe java) None].

(** The lines of a stream, as successive [readline] calls return them
    up to the empty string that marks the end. *)
Fixpoint lines_of (fuel : nat) (stream : string) : list string :=
  match fuel with
  | O => []
  | S fuel' =>
      let '(line, rest) := readline stream in
      if String.eqb line EmptyString then [] else line :: lines_of fuel' rest
  end.

End Obs.

(** ** Sample hosts and states *)

Module Samples.
Import Mx.

Definition env0 (verbose : bool) : Env :=
  mkEnv verbose false "/opt/jdk6/bin/java" "/opt/jdk6/bin/javac"
        (Raw DEFAULT_JAVA_ARGS) [] [] false.

(** A host on which every child exits with [returncode] after printing
    [output], and no URL answers. *)
Definition host_exit (returncode : Z) (output : string) : Host :=
  mkHost (λ _ _ _, Exited returncode output id)
         (λ _ _, Fails (IOError "<urlopen error timed out>"))
         (λ _, true) (λ _, true) (λ _, true) (λ _, None) "/maxine/mx".

Definition state0 (verbose : bool) (h : Host) : State :=
  mkState (env0 verbose) ∅ ∅ [] [] h.

(** A stand-in for [shlex.split] on strings without quotes. *)
Definition shlex_words (s : string) : string + list string := inr (String.words s).

Definition java0 : string := "/opt/jdk6/bin/java".

Definition banner (version : string) : string :=
  "java version " +:+ Py.dquote +:+ version +:+ Py.dquote +:+ Py.nl
    +:+ "Java(TM) SE Runtime Environment".


(** A host whose [java] answers the [-d64] probe with return code [d64]
    and the plain probe with return code [plain], printing [output]
    either way; every other child exits with zero. *)
Definition host_java (d64 plain : Z) (output : string) : Host :=
  mkHost (λ _ args _,
            if bool_decide (args = d64_probe java0) then Exited d64 output id
            else if bool_decide (args = plain_probe java0) then Exited plain output id
            else Exited 0 "" id)
         (λ _ _, Fails (IOError "<urlopen error timed out>"))
         (λ _, true) (λ _, true) (λ _, true) (λ _, None) "/maxine/mx".

(** A toy archive format: one archive, holding one entry. *)
Definition sample_zip : string := "PK lib/a.txt hello".

Definition sample_ZipFile (data : string) : string + gmap string string :=
  if String.eqb data sample_zip then inr {[ "lib/a.txt" := "hello" ]}
  else inl "File is not a zip file".

Definition lookup_page (pages : list (string * response)) (url : string) : response :=
  match list_find (λ p, fst p = url) pages with
  | Some (_, (_, r)) => r
  | None => Fails (IOError "<urlopen error timed out>")
  end.

(** A host that serves [pages], on which the compiled download helper
    is in place and every child exits with [returncode]. *)
Definition host_web (pages : list (string * response)) (returncode : Z) : Host :=
  mkHost (λ _ _ _, Exited returncode "" id)
         (λ _ url, lookup_page pages url)
         (λ _, true) (λ _, true) (λ _, true) (λ _, Some 0) "/maxine/mx".

Definition state_web (verbose : bool) (pages : list (string * response))
    (returncode : Z) : State :=
  mkState (env0 verbose)
          {[ "/maxine/mx/URLConnectionDownload.class" := "" ]} ∅ [] []
          (host_web pages returncode).

End Samples.

(** ** More Python string primitives *)

Module PyMore.

(** [sub in s] *)
Definition contains (s sub : string) : bool :=
  match Py.find s sub with
  | Some _ => true
  | None => false
  end.

(** [s.rstrip()]: without the white space at its end. *)
Fixpoint rstrip (s : string) : string :=
  match s with
  | EmptyString => EmptyString
  | String c s' =>
      match rstrip s' with
      | EmptyString => if Ascii.is_space c then EmptyString else String c EmptyString
      | r => String c r
      end
  end.

(** [s.lstrip()] *)
Fixpoint lstrip (s : string) : string :=
  match s with
  | String c s' => if Ascii.is_space c then lstrip s' else s
  | EmptyString => EmptyString
  end.

(** [s.strip()] *)
Definition strip (s : string) : string := rstrip (lstrip s).

(** [c.lower()] for one character of a byte string, in the C locale. *)
Definition lower_char (c : ascii) : ascii :=
  let n := nat_of_ascii c in
  if (65 <=? n)%nat && (n <=? 90)%nat then ascii_of_nat (n + 32) else c.

(** [s.lower()] *)
Fixpoint lower (s : string) : string :=
  match s with
  | EmptyString => EmptyString
  | String c s' => String (lower_char c) (lower s')
  end.

(** [s.split(c, 1)] for a one-character separator: the part before the
    first [c] and, when [c] occurs, the part after it. *)
Fixpoint split1 (c : ascii) (s : string) : string * option string :=
  match s with
  | EmptyString => (EmptyString, None)
  | String a s' =>
      if Ascii.eqb a c then (EmptyString, Some s')
      else let '(k, v) := split1 c s' in (String a k, v)
  end.

(** [s.split(c)] for a one-character separator: the parts between the
    occurrences of [c]; one part more than there are occurrences. *)
Fixpoint split_on (c : ascii) (s : string) : list string :=
  match s with
  | EmptyString => [EmptyString]
  | String a s' =>
      if Ascii.eqb a c then EmptyString :: split_on c s'
      else match split_on c s' with
           | part :: parts => String a part :: parts
           | [] => [String a EmptyString]
           end
  end.

(** The number of occurrences of [c] in [s]. *)
Fixpoint count_char (c : ascii) (s : string) : nat :=
  match s with
  | EmptyString => O
  | String a s' => (if Ascii.eqb a c then 1 else 0) + count_char c s'
  end.

Definition tab : string := String "009"%char EmptyString.

End PyMore.

(** ** More of the launcher ([mx.py]) *)

Module MxMore.
Import Mx.

(** *** [gmake_cmd] *)

(** [subprocess.check_output(args)]: as [check_output], with the
    standard error left to the console; the host's [output] stands for
    what the call captures. *)
Definition check_output_stdout (args : list string) : M string :=
  r ← popen_wait args None;
  if fst r =? 0 then mret (snd r)
  else raise (CalledProcessError (fst r) (CmdList args) (Some (snd r))).

Definition no_gmake_message : string :=
  "Could not find a GNU make executable on the current path.".

(** One turn of [for a in [...]]: [Some a] when the turn reaches
    [return a], [None] when it falls through or the bare [except]
    swallows what was raised. *)
Definition gmake_probe (a : string) : M (option string) :=
  catch
    (output ← check_output_stdout [a; "--version"];
     if PyMore.contains output "GNU" then mret (Some a) else mret None)
    (λ _, Some (mret None)).

(** The loop over the candidates, then the [abort] below it. *)
Fixpoint gmake_from (candidates : list string) : M string :=
  match candidates with
  | [] => abort (ExitMsg no_gmake_message)
  | a :: rest =>
      r ← gmake_probe a;
      match r with
      | Some found => mret found
      | None => gmake_from rest
      end
  end.

Definition gmake_candidates : list string := ["make"; "gmake"; "gnumake"].

(** [Env.gmake_cmd] *)
Definition gmake_cmd : M string := gmake_from gmake_candidates.

(** The children started to ask [candidates] for their version. *)
Definition version_probes (candidates : list string) : list event :=
  map (λ a, Exec [a; "--version"] None) candidates.

(** *** [default_java_home] *)

Definition java_home_candidates : list string :=
  ["/usr/lib/java/java-6-sun";
   "/System/Library/Frameworks/JavaVM.framework/Versions/1.6/Home";
   "/usr/jdk/latest"].

(** The [if]/[elif] chain: the first candidate that exists. *)
Fixpoint first_existing (candidates : list string) : M (option string) :=
  match candidates with
  | [] => mret None
  | p :: rest =>
      present ← path_exists p;
      if present : bool then mret (Some p) else first_existing rest
  end.

(** [Env.default_java_home]; [JAVA_HOME] is [os.getenv('JAVA_HOME')]. *)
Definition default_java_home (JAVA_HOME : option string) : M (option string) :=
  match JAVA_HOME with
  | Some javaHome => mret (Some javaHome)
  | None => first_existing java_home_candidates
  end.

(** *** [load_config_file] *)

(** The value of an attribute of [self]: a string, or some other
    object. *)
Inductive attr :=
| Str (s : string)
| Obj.

Definition unpack_message : string := "need more than 1 value to unpack".

Section Config.
(** [os.path.expandvars] in the environment of the process. *)
Variable expandvars : string → string.

(** The body of [for line in f], over the lines of the file; the
    attributes of [self] are passed along, and are what they were when a
    line raises. *)
Fixpoint load_lines (override : bool) (lines : list string)
    (attrs : gmap string attr) : outcome unit * gmap string attr :=
  match lines with
  | [] => (Return tt, attrs)
  | line :: rest =>
      match PyMore.split1 "=" line with
      | (k, Some v) =>
          let k := PyMore.lower (PyMore.strip k) in
          if override || negb (bool_decide (is_Some (attrs !! k))) then
            load_lines override rest (<[k := Str (expandvars (PyMore.strip v))]> attrs)
          else load_lines override rest attrs
      | (_, None) => (Raise (ValueError unpack_message), attrs)
      end
  end.

(** [Env.load_config_file] *)
Definition load_config_file (configFile : string) (override : bool)
    (attrs : gmap string attr) (st : State)
  : (outcome unit * gmap string attr) * State :=
  match path_exists configFile st with
  | (Return true, st0) =>
      match read_file configFile st0 with
      | (Return data, st1) =>
          (load_lines override (Obs.lines_of (String.length data) data) attrs, st1)
      | (Raise e, st1) => ((Raise e, attrs), st1)
      end
  | (Return false, st0) => ((Return tt, attrs), st0)
  | (Raise e, st0) => ((Raise e, attrs), st0)
  end.

End Config.

(** The key a line of a configuration file sets, if it has one. *)
Definition key_of (line : string) : option string :=
  match PyMore.split1 "=" line with
  | (k, Some _) => Some (PyMore.lower (PyMore.strip k))
  | (_, None) => None
  end.

(** *** [run_graalvm] *)

(** [self.graalvm] after the first lines of [run_graalvm]: the attribute
    when it is set, else [os.getenv('GRAALVM')]. *)
Definition resolve_graalvm (graalvm GRAALVM : option string) : option string :=
  match graalvm with
  | Some g => Some g
  | None => GRAALVM
  end.

Definition graalvm_exe (graalvm os : string) : string :=
  if String.eqb os "windows" then Py.path_join (Py.path_join graalvm "bin") "java.exe"
  else Py.path_join (Py.path_join graalvm "bin") "java".

Definition graal_version_cmd (exe : string) : list string :=
  [exe; "-graal"; "-XX:-BootstrapGraal"; "-version"].

Definition no_graalvm_message : string :=
  "Cannot find GraalVM - use --graalvm option or set GRAALVM variable".

Definition not_graal_message (exe : string) : string :=
  "Invalid GraalVM executable: " +:+ exe +:+ Py.nl +:+ "Reason: " +:+ Py.dquote
    +:+ "Graal VM" +:+ Py.dquote
    +:+ " was not in the output of the following command:" +:+ Py.nl +:+ PyMore.tab
    +:+ Py.join " " (graal_version_cmd exe).

Definition graal_error_message (exe : string) : string :=
  "Invalid GraalVM executable: " +:+ exe +:+ Py.nl
    +:+ "Reason: Error raised when executing the following command:" +:+ Py.nl
    +:+ PyMore.tab +:+ Py.join " " (graal_version_cmd exe).

(** [Env.run_graalvm]; [graalvm] and [os] are the attributes of [self],
    [GRAALVM] is [os.getenv('GRAALVM')].  The assignment to
    [self.graalvm] is [resolve_graalvm]; it comes before anything can be
    raised. *)
Definition run_graalvm (graalvm GRAALVM : option string) (os : string)
    (args : list string) (nonZeroIsFatal : bool) (out err : option sink)
    (cwd : option string) : M Z :=
  match resolve_graalvm graalvm GRAALVM with
  | None => abort (ExitMsg no_graalvm_message)
  | Some g =>
      let exe := graalvm_exe g os in
      present ← path_exists exe;
      when (negb present)
           (abort (ExitMsg ("GraalVM executable does not exist: " +:+ exe)));;
      catch
        (output ← check_output (graal_version_cmd exe);
         when (negb (PyMore.contains output "Graal VM"))
              (abort (ExitMsg (not_graal_message exe))))
        (λ _, Some (abort (ExitMsg (graal_error_message exe))));;
      dbg ← get (λ st, java_dbg (self st));
      let graalvm_cmd := [exe; "-graal"] ++ (if dbg : bool then debug_args else []) in
      run (graalvm_cmd ++ args) nonZeroIsFatal out err cwd
  end.

End MxMore.

(** ** More of the commands ([commands.py]) *)

Module Commands.
Import Mx.

(** *** The filter of [build] for the output of [javac] *)

Definition proprietary_marker : string := "Sun proprietary API".

(** [Filter.eat(line)]: the counter [self.c] afterwards, and the line
    printed, if one is. *)
Definition Filter_eat (c : Z) (line : string) : Z * option string :=
  if PyMore.contains line proprietary_marker then (2, None)
  else if negb (c =? 0) then (c - 1, None)
  else (c, Some (PyMore.rstrip line)).

(** [eat] called on the lines of the error stream, one after the other:
    the counter afterwards and the lines printed. *)
Fixpoint Filter_feed (c : Z) (lines : list string) : Z * list string :=
  match lines with
  | [] => (c, [])
  | line :: rest =>
      let '(c', printed) := Filter_eat c line in
      let '(c'', more) := Filter_feed c' rest in
      (c'', match printed with Some l => l :: more | None => more end)
  end.

(** *** The collector of [_configs] *)

(** [Configs.eat(line)]: [(k, v) = line.split('#')] unpacks exactly two
    parts. *)
Definition Configs_eat (configs : gmap string string) (line : string)
  : outcome unit * gmap string string :=
  match PyMore.split_on "#" line with
  | [k; v] => (Return tt, <[k := PyMore.rstrip v]> configs)
  | [_] => (Raise (ValueError "need more than 1 value to unpack"), configs)
  | _ => (Raise (ValueError "too many values to unpack"), configs)
  end.

(** *** The exclusion list of [check] *)

(** [patterns], from [f.readlines()] of [.checkstyle.exclude] (with
    [os.sep] being [/]). *)
Definition exclude_patterns (data : string) : list string :=
  map PyMore.rstrip (Obs.lines_of (String.length data) data).

(** The nested [match(name)] *)
Fixpoint match_name (patterns : list string) (name : string) : M bool :=
  match patterns with
  | [] => mret false
  | p :: rest =>
      if PyMore.contains name p then log ("excluding: " +:+ name);; mret true
      else match_name rest name
  end.

(** [[name for name in javafilelist if not match(name)]] *)
Fixpoint exclude (patterns : list string) (javafilelist : list string)
  : M (list string) :=
  match javafilelist with
  | [] => mret []
  | name :: rest =>
      excluded ← match_name patterns name;
      kept ← exclude patterns rest;
      mret (if excluded : bool then kept else name :: kept)
  end.

(** [name] has none of the patterns in it. *)
Definition clear_of (patterns : list string) (name : string) : bool :=
  forallb (λ p, negb (PyMore.contains name p)) patterns.

End Commands.

(** * Properties *)

(** ** Batching *)

Module BatchFacts.
Import Batch.


Lemma len_nonneg s : 0 ≤ Py.len s.
Proof. unfold Py.len. lia. Qed.

Lemma weight_nonneg b : 0 ≤ weight b.
Proof.
  induction b as [|x b IH]; simpl; [lia|].
  pose proof (len_nonneg x). lia.
Qed.

Lemma weight_cons x b : weight (x :: b) = Py.len x + 1 + weight b.
Proof. reflexivity. Qed.



Lemma scan_le limit l size : (scan limit l size ≤ length l)%nat.
Proof.
  revert size. induction l as [|x l IH]; intros size; simpl; [lia|].
  destruct (_ <? _); [|lia]. specialize (IH (size + (Py.len x + 1))). lia.
Qed.





(** Whenever the loop ends, its batches make up the list. *)
Lemma batches_concat limit fuel l bs :
  batches fuel limit l = Some bs → concat bs = l.
Proof.
  revert l bs. induction fuel as [|fuel IH]; intros l bs.
  - destruct l; simpl; [|done]. by intros [= <-].
  - destruct l as [|x l]; simpl; [by intros [= <-]|].
    unfold batch_step.
    destruct (batches fuel limit _) as [bs'|] eqn:E; [|done].
    intros [= <-]. simpl. rewrite (IH _ _ E). apply take_drop.
Qed.



End BatchFacts.

(** ** Reasoning about script actions *)

Module MFacts.
Import Mx.

Lemma bind_Return {A B} (m : M A) (k : A → M B) st a st' :
  m st = (Return a, st') → (m ≫= k) st = k a st'.
Proof. intros H. unfold mbind, M_bind, bind. by rewrite H. Qed.

Lemma bind_Raise {A B} (m : M A) (k : A → M B) st e st' :
  m st = (Raise e, st') → (m ≫= k) st = (Raise e, st').
Proof. intros H. unfold mbind, M_bind, bind. by rewrite H. Qed.

Lemma bind_Return_inv {A B} (m : M A) (k : A → M B) st b st' :
  (m ≫= k) st = (Return b, st') →
  ∃ a st1, m st = (Return a, st1) ∧ k a st1 = (Return b, st').
Proof.
  unfold mbind, M_bind, bind. destruct (m st) as [[a|e] st1]; [eauto|done].
Qed.

Lemma bind_inv {A B} (m : M A) (k : A → M B) st r st' :
  (m ≫= k) st = (r, st') →
  (∃ e, m st = (Raise e, st') ∧ r = Raise e)
  ∨ (∃ a st1, m st = (Return a, st1) ∧ k a st1 = (r, st')).
Proof.
  unfold mbind, M_bind, bind. destruct (m st) as [[a|e] st1].
  - right. eauto.
  - intros [= <- <-]. left. eauto.
Qed.

End MFacts.

(** Unfold the monad and the primitives down to functions on states. *)
Ltac unfold_M :=
  cbv [mbind Mx.M_bind mret Mx.M_ret Mx.bind Mx.ret Mx.get Mx.modify Mx.when Mx.catch
       Mx.raise Mx.abort Mx.log Mx.assign Mx.subprocess_call Mx.check_output
       Mx.check_call Mx.popen_wait].

(** ** Running a child process *)

Module RunFacts.
Import Mx Obs.

(** [run] starts [args] once, whatever the outcome, and leaves [self]
    alone. *)
Lemma run_trace args fatal out err cwd st r st' :
  run args fatal out err cwd st = (r, st') →
  trace st' = trace st ++ [Exec args (run_cwd out err cwd)]
  ∧ self st' = self st.
Proof.
  unfold run, run_cwd. unfold_M.
  destruct (verbose (self st)) eqn:V; simpl;
    destruct out, err; simpl;
    destruct (spawn _ _ _ _) as [errno msg|rc output effect]; simpl; rewrite ?V;
    try destruct (negb (rc =? 0) && fatal); simpl; rewrite ?V;
    intros [= <- <-]; split; reflexivity.
Qed.

(** [run] on a child that starts and exits with [N]. *)
Lemma run_exited st args fatal out err cwd N output effect :
  run_child st args out err cwd = Exited N output effect →
  run args fatal out err cwd st
  = (if negb (N =? 0) && fatal
     then Raise (if verbose (self st)
                 then CalledProcessError N (CmdStr (Py.join " " args)) None
                 else SystemExit (ExitCode N))
     else Return N,
     spawned args out err cwd effect st).
Proof.
  intros Hc. unfold run_child, run_cwd in Hc.
  unfold run, spawned, announced, run_cwd. unfold_M.
  destruct (verbose (self st)) eqn:V; simpl;
    destruct out, err; simpl; rewrite ?Hc; simpl;
    destruct (negb (N =? 0) && fatal); simpl; rewrite ?V; done.
Qed.

(** A fatal [run] returns zero or not at all, and what it raises is
    never an exit with a message. *)
Lemma run_fatal_spec args out err cwd st r st' :
  run args true out err cwd st = (r, st') →
  r = Return 0 ∨ ∃ e, r = Raise e ∧ ∀ msg, e ≠ SystemExit (ExitMsg msg).
Proof.
  unfold run. unfold_M.
  destruct (verbose (self st)) eqn:V; simpl;
    destruct out, err; simpl;
    destruct (spawn _ _ _ _) as [errno msg|rc output effect]; simpl; rewrite ?V;
    try (destruct (Z.eqb_spec rc 0) as [->|]; simpl; rewrite ?V);
    intros [= <- <-]; first [by left | right; by eexists].
Qed.




End RunFacts.

(** ** Lazy initialization *)

Module InitFacts.
Import Mx Obs MFacts.

Lemma keeps_flags_trace st st' : keeps_flags st st' → trace st' = trace st.
Proof. by intros [-> _]. Qed.

Section WithShlex.
Variable shlex_split : string → string + list string.

Lemma split_all_pure l st :
  ∃ r, split_all shlex_split l st = (r, st).
Proof.
  revert st. induction l as [|s l IH]; intros st; simpl; [by eexists|].
  unfold delAtAndSplit. unfold_M.
  destruct (shlex_split _); simpl; [by eexists|].
  destruct (IH st) as [[ts|e] ->]; by eexists.
Qed.

(** Tokenizing touches the three option attributes only. *)
Lemma split_vm_args_frame st r st' :
  split_vm_args shlex_split st = (r, st') → keeps_flags st st'.
Proof.
  unfold split_vm_args, keeps_flags. unfold_M. unfold delAtAndSplit. unfold_M.
  destruct (java_args (self st)) as [raw|l]; simpl.
  2:{ intros [= <- <-]. by destruct st. }
  destruct (shlex_split _); simpl.
  { intros [= <- <-]. by destruct st. }
  match goal with |- context [split_all _ ?l ?s] =>
    destruct (split_all_pure l s) as [[p|e] ->] end; simpl.
  2:{ intros [= <- <-]. by repeat split. }
  match goal with |- context [split_all _ ?l ?s] =>
    destruct (split_all_pure l s) as [[p'|e] ->] end; simpl.
  all: intros [= <- <-]; by repeat split.
Qed.

(** The probes: the [-d64] one always, the plain one when the first
    exits non-zero. *)
Lemma probe_version_spec st r st' :
  probe_version st = (r, st') →
  let jv := java (self st) in
  ∃ evs, trace st' = trace st ++ evs
         ∧ (evs = [Exec (d64_probe jv) None]
            ∨ evs = [Exec (d64_probe jv) None; Exec (plain_probe jv) None])
         ∧ java_initialized (self st') = java_initialized (self st)
         ∧ java (self st') = java (self st)
         ∧ java_dbg (self st') = java_dbg (self st)
         ∧ verbose (self st') = verbose (self st).
Proof.
  unfold probe_version, java_args_list. unfold_M. cbn beta.
  destruct (spawn _ _ (d64_probe _) _) as [errno msg|rc out eff]; simpl.
  { intros [= <- <-]. eexists. split; [reflexivity|]. by repeat split; try left. }
  destruct (rc =? 0); simpl.
  { destruct (java_args (self st)); simpl; intros [= <- <-];
      (eexists; split; [reflexivity|]; by repeat split; try left). }
  destruct (spawn _ _ (plain_probe _) _) as [errno msg|rc2 out2 eff2]; simpl.
  { intros [= <- <-]. eexists.
    split; [simpl; by rewrite <- app_assoc|]. by repeat split; try right. }
  destruct (rc2 =? 0); simpl; intros [= <- <-];
    (eexists; split; [simpl; by rewrite <- app_assoc|]; by repeat split; try right).
Qed.

Lemma check_version_pure output st : ∃ r, check_version output st = (r, st).
Proof.
  unfold check_version, item, pyassert. unfold_M.
  repeat (case_match; simplify_eq/=; try by eexists).
Qed.

(** One run of the body: the probes once, and on return the flag is
    set. *)
Lemma init_java_body_spec st r st' :
  init_java_body shlex_split st = (r, st') →
  ∃ evs, trace st' = trace st ++ evs
         ∧ probe_events (java (self st)) evs
         ∧ (r = Return tt → evs ≠ [] ∧ java_initialized (self st') = true)
         ∧ java (self st') = java (self st)
         ∧ verbose (self st') = verbose (self st).
Proof.
  unfold init_java_body. intros H.
  apply bind_inv in H as [(e & Hsplit & ->)|([] & st1 & Hsplit & H)];
    apply split_vm_args_frame in Hsplit as Hframe;
    pose proof (keeps_flags_trace _ _ Hframe) as W1;
    destruct Hframe as (_ & I1 & J1 & D1 & V1).
  { exists []. rewrite app_nil_r. split; [done|].
    split; [by left|]. by repeat split. }
  apply bind_inv in H as [(e & Hprobe & ->)|(output & st2 & Hprobe & H)];
    apply probe_version_spec in Hprobe as (evs & T2 & Hevs & I2 & J2 & D2 & V2);
    rewrite J1 in Hevs.
  { exists evs. split; [congruence|]. split; [right; exact Hevs|].
    split; [done|]. split; congruence. }
  exists evs.
  destruct (check_version_pure output st2) as [rc Hc].
  revert H. unfold_M. rewrite Hc. unfold java_args_list. unfold_M.
  repeat (case_match; simplify_eq/=); intros [= <- <-]; simpl;
    (split; [congruence|]); (split; [right; exact Hevs|]);
    (split; [intros; first [done | split; [by destruct Hevs as [-> | ->] | done]]
            | split; congruence]).
Qed.

(** Once the flag is set, [init_java] does nothing. *)
Lemma init_java_ready st :
  java_initialized (self st) = true → init_java shlex_split st = (Return tt, st).
Proof. intros H. unfold init_java. unfold_M. by rewrite H. Qed.

Lemma init_java_spec st r st' :
  init_java shlex_split st = (r, st') →
  ∃ evs, trace st' = trace st ++ evs
         ∧ probe_events (java (self st)) evs
         ∧ (r = Return tt → java_initialized (self st') = true)
         ∧ (r = Return tt → java_initialized (self st) = false → evs ≠ []).
Proof.
  unfold init_java. unfold_M.
  destruct (java_initialized (self st)) eqn:I.
  - intros [= <- <-]. exists []. rewrite app_nil_r. by repeat split; try left.
  - intros H. apply init_java_body_spec in H as (evs & T & P & R & _).
    exists evs. repeat split; try done; intros; by apply R.
Qed.

Lemma java_cmd_pure args st :
  java_cmd args st
  = (match java_args (self st) with
     | Tokens _ => Return (ready_cmd (self st) args)
     | Raw _ => Raise TypeError
     end, st).
Proof.
  unfold java_cmd, java_args_list, ready_cmd. unfold_M.
  by destruct (java_args (self st)).
Qed.

(** With the flag set, a helper is the helper without [init_java]. *)
Lemma perform_when_ready c st :
  java_initialized (self st) = true →
  perform shlex_split c st = perform_ready c st.
Proof.
  intros I.
  destruct c; unfold perform, perform_ready, run_java, format_java_cmd;
    unfold mbind, M_bind, bind; by rewrite (init_java_ready _ I).
Qed.

Lemma commands_cons e c cs : commands e (c :: cs) = commands e [c] ++ commands e cs.
Proof. by destruct c. Qed.

(** Without [init_java] a helper starts at most the child it was
    asked for, and leaves [self] alone. *)
Lemma perform_ready_spec c st r st' :
  perform_ready c st = (r, st') →
  self st' = self st
  ∧ ∃ evs, evs `prefix_of` commands (self st) [c]
           ∧ trace st' = trace st ++ evs
           ∧ (r = Return tt → evs = commands (self st) [c]).
Proof.
  destruct c as [args|args fatal out err cwd]; unfold perform_ready;
    unfold mbind, M_bind, bind; rewrite java_cmd_pure.
  - destruct (java_args (self st)); simpl; intros [= <- <-];
      (split; [done|]); exists []; by rewrite app_nil_r.
  - destruct (java_args (self st)) eqn:A; simpl.
    { intros [= <- <-]. split; [done|]. exists [].
      rewrite app_nil_r. split; [apply prefix_nil|done]. }
    destruct (run _ _ _ _ _ st) as [r0 st0] eqn:Hrun.
    apply RunFacts.run_trace in Hrun as [T S].
    destruct r0; simpl; intros [= <- <-]; (split; [done|]);
      eexists; (split; [reflexivity|]); by split.
Qed.

(** A helper that returns leaves the flag set. *)
Lemma perform_returns c st st' :
  perform shlex_split c st = (Return tt, st') → java_initialized (self st') = true.
Proof.
  destruct c as [args|args fatal out err cwd]; unfold perform, run_java, format_java_cmd;
    intros H; apply bind_Return_inv in H as (x & st1 & H & E);
    unfold mret, M_ret, ret in E; injection E as <-.
  - apply bind_Return_inv in H as ([] & st2 & Hinit & H).
    apply init_java_spec in Hinit as (_ & _ & _ & I & _).
    rewrite java_cmd_pure in H. destruct (java_args (self st2)); [done|].
    injection H as _ <-. by apply I.
  - apply bind_Return_inv in H as (cmd & st2 & H & Hrun).
    apply bind_Return_inv in H as ([] & st3 & Hinit & H).
    apply init_java_spec in Hinit as (_ & _ & _ & I & _).
    rewrite java_cmd_pure in H. destruct (java_args (self st3)); [done|].
    injection H as _ <-. apply RunFacts.run_trace in Hrun as [_ ->]. by apply I.
Qed.

(** A sequence of helpers without [init_java] starts the children it
    was asked for, in order, and nothing else; [self] stays as it
    was. *)
Lemma perform_all_ready_spec cs st r st' :
  perform_all_ready cs st = (r, st') →
  self st' = self st
  ∧ ∃ evs, evs `prefix_of` commands (self st) cs
           ∧ trace st' = trace st ++ evs.
Proof.
  revert st. induction cs as [|c cs IH]; intros st.
  { intros [= <- <-]. split; [done|]. exists []. by rewrite app_nil_r. }
  cbn [perform_all_ready]. rewrite commands_cons.
  intros H. apply bind_inv in H as [(e & H & ->)|([] & st1 & H & Hrest)].
  - apply perform_ready_spec in H as (S & evs & P & T & _). split; [done|].
    exists evs. split; [by apply prefix_app_r|done].
  - apply perform_ready_spec in H as (S & evs & _ & T & R).
    apply IH in Hrest as (S' & evs' & P' & T'). rewrite S in S', P'.
    split; [done|]. exists (evs ++ evs'). rewrite (R eq_refl) in *.
    split; [by apply prefix_app|]. by rewrite T', T, <- app_assoc.
Qed.

Lemma perform_all_when_ready cs st :
  java_initialized (self st) = true →
  perform_all shlex_split cs st = perform_all_ready cs st.
Proof.
  revert st. induction cs as [|c cs IH]; intros st I; simpl; [done|].
  unfold mbind, M_bind, bind. rewrite (perform_when_ready _ _ I).
  destruct (perform_ready c st) as [[[]|e] st1] eqn:H; [|done].
  apply IH. apply perform_ready_spec in H as [-> _]. exact I.
Qed.

(** C5: in a sequence of calls of the helpers that format or run a
    Java command, the body of [init_java] is executed by the first
    call at most.  (1) The sequence is the first call followed by the
    helpers without [init_java].  (2) The first call's [init_java]
    starts the [-d64] probe once, the plain probe at most once after
    it, and when it returns from an uninitialized state the probes
    did run.  (3) Once the first call has returned, the state is
    initialized, [init_java] changes nothing, and the later calls
    leave [self] as validated and start only the children they were
    asked to run. *)
Theorem init_java_once (c : java_call) (cs : list java_call) (st : State) :
  perform_all shlex_split (c :: cs) st
    = (perform shlex_split c ≫= λ _, perform_all_ready cs) st
  ∧ (∀ r st1, init_java shlex_split st = (r, st1) →
       ∃ evs, trace st1 = trace st ++ evs
              ∧ probe_events (java (self st)) evs
              ∧ (r = Return tt → java_initialized (self st) = false → evs ≠ []))
  ∧ (∀ st1, perform shlex_split c st = (Return tt, st1) →
       java_initialized (self st1) = true
       ∧ init_java shlex_split st1 = (Return tt, st1)
       ∧ ∀ r st2, perform_all shlex_split cs st1 = (r, st2) →
           self st2 = self st1
           ∧ ∃ evs, evs `prefix_of` commands (self st1) cs
                    ∧ trace st2 = trace st1 ++ evs).
Proof.
  split; [|split].
  - cbn [perform_all]. unfold mbind, M_bind, bind.
    destruct (perform shlex_split c st) as [[[]|e] st1] eqn:H; [|done].
    apply perform_all_when_ready. by apply perform_returns in H.
  - intros r st1 H. apply init_java_spec in H as (evs & T & P & _ & N).
    by exists evs.
  - intros st1 H. apply perform_returns in H as I.
    split; [done|]. split; [by apply init_java_ready|].
    intros r st2. rewrite (perform_all_when_ready _ _ I).
    apply perform_all_ready_spec.
Qed.

(** The outcome of the probes, by cases on what the two children
    do. *)
Lemma probe_version_both_fail st rc1 out1 eff1 rc out eff :
  let jv := java (self st) in
  spawn (host st) (trace st) (d64_probe jv) None = Exited rc1 out1 eff1 →
  rc1 ≠ 0 →
  spawn (host st) (trace st ++ [Exec (d64_probe jv) None]) (plain_probe jv) None
    = Exited rc out eff →
  probe_version st
  = (if rc =? 0 then Return out else Raise (SystemExit (ExitCode rc)),
     (if rc =? 0 then λ s, s else print out)
       (after_child (plain_probe jv) eff (after_child (d64_probe jv) eff1 st))).
Proof.
  intros jv H1 N1 H2. unfold probe_version, after_child. unfold_M. cbn beta.
  fold jv. rewrite H1. simpl.
  destruct (Z.eqb_spec rc1 0) as [|_]; [done|]. simpl. rewrite H2. simpl.
  by destruct (rc =? 0).
Qed.

(** A child that cannot be started is not a failed probe in the sense
    of the [except] clauses: the [OSError] leaves [init_java]. *)
Lemma probe_version_not_started st errno strerror :
  let jv := java (self st) in
  spawn (host st) (trace st) (d64_probe jv) None = NotStarted errno strerror →
  probe_version st = (Raise (OSError errno strerror), record (Exec (d64_probe jv) None) st).
Proof.
  intros jv H. unfold probe_version. unfold_M. cbn beta. fold jv. by rewrite H.
Qed.



End WithShlex.


Lemma init_java_once_witness :
  let st := Samples.state0 false (Samples.host_java 0 0 (Samples.banner "1.6.0_26")) in
  let c := FormatJavaCmd ["-jar"; "checkstyle.jar"] in
  let cs := [RunJava ["-version"] true None None None; FormatJavaCmd []] in
  perform_all Samples.shlex_words (c :: cs) st
    = (perform Samples.shlex_words c ≫= λ _, perform_all_ready cs) st
  ∧ ∃ st2, perform_all Samples.shlex_words (c :: cs) st = (Return tt, st2)
           ∧ trace st2 = [Exec (d64_probe Samples.java0) None;
                          Exec ([Samples.java0; "-d64"; "-ea"; "-Xss2m"; "-Xmx1g"; "-version"]) None].
Proof.
  intros st c cs. split.
  - exact (proj1 (init_java_once Samples.shlex_words c cs st)).
  - eexists. split; vm_compute; reflexivity.
Defined.

End InitFacts.

(** ** Content fetching *)

Module DownloadFacts.
Import Mx Obs MFacts.

Lemma ensure_helper_raises st e st' :
  ensure_helper st = (Raise e, st') → ∀ msg, e ≠ SystemExit (ExitMsg msg).
Proof.
  unfold ensure_helper, path_exists, path_getmtime. unfold_M. cbn beta.
  repeat (case_match; simplify_eq/=); intros [= <- <-]; done.
Qed.

(** The message of the last line of [download] is never the way
    [download] ends: the helper is run with [nonZeroIsFatal] left at its
    default, so [run] returns zero or does not return. *)
Lemma delegate_never_reports path urls st r st' :
  delegate path urls st = (r, st') →
  ∀ msg, r ≠ Raise (SystemExit (ExitMsg msg)).
Proof.
  unfold delegate. intros H msg ->.
  apply bind_inv in H as [(e & H & [= <-])|([] & st1 & _ & H)].
  { by eapply ensure_helper_raises. }
  apply bind_inv in H as [(e & H & _)|(cmd & st2 & _ & H)]; [done|].
  apply bind_inv in H as [(e & H & [= <-])|(rc & st3 & H & Hrc)];
    apply RunFacts.run_fatal_spec in H as [H|(e' & H & He)]; simplify_eq.
  by eapply He.
Qed.

Section WithZipFile.
Variable ZipFile : string → string + gmap string string.

Lemma fetch_from_cons path all url urls st :
  fetch_from ZipFile path all (url :: urls) st
  = match attempt ZipFile path url st with
    | (Return true, st') => (Return tt, st')
    | (Return false, st') => fetch_from ZipFile path all urls st'
    | (Raise e, st') => (Raise e, st')
    end.
Proof.
  cbn [fetch_from]. unfold mbind, M_bind, bind.
  by destruct (attempt ZipFile path url st) as [[[]|e] st'].
Qed.

(** The locators that failed are behind: the loop goes on with the
    rest. *)
Lemma fetch_from_skip path all pre rest st st1 :
  skip ZipFile path pre st = Some st1 →
  fetch_from ZipFile path all (pre ++ rest) st = fetch_from ZipFile path all rest st1.
Proof.
  revert st. induction pre as [|url pre IH]; intros st.
  { by intros [= ->]. }
  cbn [skip]. rewrite <- app_comm_cons, fetch_from_cons.
  destruct (attempt ZipFile path url st) as [[[]|e] st0]; try done.
  by apply IH.
Qed.

(** No [IOError] and no [BadZipfile] leaves a turn of the loop. *)
Lemma attempt_contains path url st e st' :
  attempt ZipFile path url st = (Raise e, st') → ¬ recoverable e.
Proof.
  unfold attempt. unfold catch at 1.
  match goal with |- context [match ?m st with _ => _ end] =>
    destruct (m st) as [[b|e0] st0] end; [done|].
  destruct e0; simpl; unfold_M; intros [= <- <-]; simpl; tauto.
Qed.

(** A turn of the loop on a plain URL. *)
Lemma attempt_plain path url st :
  archive_scheme url = false →
  let st1 := record (UrlOpen url) (downloading path url st) in
  attempt ZipFile path url st
  = match urlopen (host st) (trace st) url with
    | Body data =>
        if may_write (host st) path && negb (bool_decide (path ∈ dirs st)) then
          (Return true,
           set_files (<[path := data]> (files st)) (record (FileWrite path data) st1))
        else
          (Return false,
           print ("Error reading from " +:+ url +:+ ": "
                    +:+ "[Errno 13] Permission denied: '" +:+ path +:+ "'") st1)
    | Fails e =>
        match on_fetch_error url e with
        | Some k => k st1
        | None => (Raise e, st1)
        end
    end.
Proof.
  unfold archive_scheme. intros H.
  unfold attempt, fetch_plain, url_open, write_file, read, downloading.
  unfold_M. rewrite H. simpl.
  destruct (urlopen _ _ _) as [e|data]; simpl; [done|].
  by destruct (may_write _ _ && _).
Qed.

(** A turn of the loop on a [zip:] or [jar:] locator.  The archive
    reader is given what the second [f.read()] returns: nothing. *)
Lemma attempt_archive path url st :
  archive_scheme url = true →
  let st0 := downloading path url st in
  attempt ZipFile path url st
  = match Py.find url "!/" with
    | None => (Raise (SystemExit (ExitMsg (no_separator_message url))), st0)
    | Some _ =>
        let '(outer, entry) := Py.partition (Py.drop_chars 4 url) "!/" in
        let st1 := record (UrlOpen outer) st0 in
        match urlopen (host st) (trace st) outer with
        | Fails e =>
            match on_fetch_error outer e with
            | Some k => k st1
            | None => (Raise e, st1)
            end
        | Body _ =>
            match ZipFile EmptyString with
            | inl str =>
                (Return false,
                 print ("Error in zip file downloaded from " +:+ outer +:+ ": " +:+ str) st1)
            | inr zf =>
                match zf !! entry with
                | Some data =>
                    if may_write (host st) path && negb (bool_decide (path ∈ dirs st)) then
                      (Return true,
                       set_files (<[path := data]> (files st))
                         (record (FileWrite path data) st1))
                    else
                      (Return false,
                       print ("Error reading from " +:+ outer +:+ ": "
                                +:+ "[Errno 13] Permission denied: '" +:+ path +:+ "'") st1)
                | None => (Raise (KeyError entry), st1)
                end
            end
        end
    end.
Proof.
  unfold archive_scheme. intros H.
  unfold attempt, fetch_entry, url_open, write_file, read, downloading.
  unfold_M. rewrite H. simpl.
  destruct (Py.find url "!/") as [i|]; simpl; [|done].
  destruct (Py.partition _ _) as [outer entry]. simpl.
  destruct (urlopen _ _ _) as [e|data]; simpl.
  { destruct e; simpl; done. }
  destruct (ZipFile EmptyString) as [str|zf]; simpl; [done|].
  destruct (zf !! entry) as [d|]; simpl; [|done].
  by destruct (may_write _ _ && _).
Qed.

Lemma on_fetch_error_recoverable url e st :
  recoverable e →
  ∃ k, on_fetch_error url e = Some k
       ∧ k st = (Return false, print (error_line url e) st).
Proof. destruct e; simpl; try done; intros _; by eexists. Qed.

(** C7: in a turn of the fetch loop, (1) no [IOError] and no
    [BadZipfile] leaves the turn; (2) when opening or reading the URL
    raises one of them, the error is logged and the loop goes on with
    the next locator, for a plain URL and for the outer URL of an
    archive locator alike; (3) when the archive reader raises
    [BadZipfile], the same; (4) a turn that succeeds ends [download]
    in the state the turn left: no later locator is opened and the
    helper is not run; (5) a plain URL that answers and a destination
    that can be written make such a turn. *)
Theorem fetch_recovers_and_stops (path : string) (all : list string)
    (url : string) (urls : list string) (st : State) :
  (∀ e st', attempt ZipFile path url st = (Raise e, st') → ¬ recoverable e)
  ∧ (∀ e, recoverable e →
       archive_scheme url = false →
       urlopen (host st) (trace st) url = Fails e →
       attempt ZipFile path url st = (Return false, gave_up path url url e st)
       ∧ fetch_from ZipFile path all (url :: urls) st
         = fetch_from ZipFile path all urls (gave_up path url url e st))
  ∧ (∀ e outer entry, recoverable e →
       archive_scheme url = true →
       is_Some (Py.find url "!/") →
       Py.partition (Py.drop_chars 4 url) "!/" = (outer, entry) →
       urlopen (host st) (trace st) outer = Fails e →
       attempt ZipFile path url st = (Return false, gave_up path url outer e st)
       ∧ fetch_from ZipFile path all (url :: urls) st
         = fetch_from ZipFile path all urls (gave_up path url outer e st))
  ∧ (∀ str outer entry data,
       archive_scheme url = true →
       is_Some (Py.find url "!/") →
       Py.partition (Py.drop_chars 4 url) "!/" = (outer, entry) →
       urlopen (host st) (trace st) outer = Body data →
       ZipFile EmptyString = inl str →
       attempt ZipFile path url st
         = (Return false, gave_up path url outer (BadZipfile str) st)
       ∧ fetch_from ZipFile path all (url :: urls) st
         = fetch_from ZipFile path all urls (gave_up path url outer (BadZipfile str) st))
  ∧ (∀ st', attempt ZipFile path url st = (Return true, st') →
       fetch_from ZipFile path all (url :: urls) st = (Return tt, st'))
  ∧ (∀ data,
       archive_scheme url = false →
       urlopen (host st) (trace st) url = Body data →
       may_write (host st) path && negb (bool_decide (path ∈ dirs st)) = true →
       fetch_from ZipFile path all (url :: urls) st
         = (Return tt, fetched path url url data st)).
Proof.
  assert (∀ opened e, recoverable e →
            match on_fetch_error opened e with
            | Some k => k (record (UrlOpen opened) (downloading path url st))
            | None => (Raise e, record (UrlOpen opened) (downloading path url st))
            end = (Return false, gave_up path url opened e st)) as Hlogged.
  { intros opened e He.
    by destruct (on_fetch_error_recoverable opened e
                   (record (UrlOpen opened) (downloading path url st)) He)
      as (k & -> & ->). }
  split; [apply attempt_contains|].
  split.
  { intros e He Hs Hu.
    assert (attempt ZipFile path url st = (Return false, gave_up path url url e st)) as Ha.
    { rewrite attempt_plain by done. cbn zeta. rewrite Hu. by apply Hlogged. }
    split; [done|]. by rewrite fetch_from_cons, Ha. }
  split.
  { intros e outer entry He Hs [i Hi] Hpart Hu.
    assert (attempt ZipFile path url st = (Return false, gave_up path url outer e st)) as Ha.
    { rewrite attempt_archive by done. rewrite Hi, Hpart. cbn zeta. rewrite Hu.
      by apply Hlogged. }
    split; [done|]. by rewrite fetch_from_cons, Ha. }
  split.
  { intros str outer entry data Hs [i Hi] Hpart Hu Hz.
    assert (attempt ZipFile path url st
            = (Return false, gave_up path url outer (BadZipfile str) st)) as Ha.
    { rewrite attempt_archive by done. rewrite Hi, Hpart. cbn zeta. by rewrite Hu, Hz. }
    split; [done|]. by rewrite fetch_from_cons, Ha. }
  split.
  { intros st' Ha. by rewrite fetch_from_cons, Ha. }
  intros data Hs Hu Hw. rewrite fetch_from_cons, attempt_plain by done.
  cbn zeta. by rewrite Hu, Hw.
Qed.

(** A [zip:] or [jar:] locator never makes a successful turn, and its
    turn writes no file, as long as the archive reader rejects the
    empty string. *)
Lemma attempt_archive_never_writes path url st r st' str :
  ZipFile EmptyString = inl str →
  archive_scheme url = true →
  attempt ZipFile path url st = (r, st') →
  r ≠ Return true ∧ files st' = files st.
Proof.
  intros Hz Hs. rewrite attempt_archive by done. cbn zeta.
  destruct (Py.find url "!/"); [|by intros [= <- <-]].
  destruct (Py.partition _ _) as [outer entry].
  destruct (urlopen _ _ _) as [e|data]; rewrite ?Hz.
  - destruct e; simpl; unfold_M; by intros [= <- <-].
  - by intros [= <- <-].
Qed.

(** C2 (as the code has it): with an unreachable plain URL followed
    by an archive locator whose archive is reachable, the loop logs
    both locators as failed and [download] goes on to the Java helper;
    the files are as they were, so the destination does not hold the
    entry.  The archive is read whole by the first [f.read()]; the
    reader is given the second, empty one. *)
Theorem archive_entry_never_fetched (path bad url outer entry str msg data : string)
    (st st0 : State) :
  ZipFile EmptyString = inl msg →
  ensure_parent path st = (Return tt, st0) →
  archive_scheme bad = false →
  urlopen (host st0) (trace st0) bad = Fails (IOError str) →
  archive_scheme url = true →
  is_Some (Py.find url "!/") →
  Py.partition (Py.drop_chars 4 url) "!/" = (outer, entry) →
  urlopen (host st0) (trace st0 ++ [UrlOpen bad]) outer = Body data →
  let st1 := gave_up path bad bad (IOError str) st0 in
  let st2 := gave_up path url outer (BadZipfile msg) st1 in
  download ZipFile path [bad; url] st = delegate path [bad; url] st2
  ∧ files st2 = files st0.
Proof.
  intros Hz Hp Hbs Hbad Hs [i Hi] Hpart Hu st1 st2. split; [|done].
  unfold download. rewrite (bind_Return _ _ _ _ _ Hp).
  rewrite fetch_from_cons, attempt_plain by done. cbn zeta. rewrite Hbad.
  cbn [on_fetch_error]. unfold_M.
  change (print _ (record (UrlOpen bad) (downloading path bad st0))) with st1.
  rewrite fetch_from_cons, attempt_archive by done. rewrite Hi, Hpart. cbn zeta.
  change (trace st1) with (trace st0 ++ [UrlOpen bad]).
  change (host st1) with (host st0). by rewrite Hu, Hz.
Qed.

(** C3 (as the code has it): when every listed URL has failed and
    the helper exits with a non-zero code [N], [download] ends inside
    [run]: with [SystemExit(N)], or in verbose mode with
    [CalledProcessError].  The abort whose message lists the URLs is
    never reached, in any state. *)
Theorem download_helper_failure (path : string) (urls : list string)
    (st st0 st1 st2 : State) (N : Z) (output : string)
    (effect : gmap string string → gmap string string) :
  ensure_parent path st = (Return tt, st0) →
  skip ZipFile path urls st0 = Some st1 →
  ensure_helper st1 = (Return tt, st2) →
  spawn (host st2) (trace st2) (helper_cmd st2 path urls) None = Exited N output effect →
  N ≠ 0 →
  download ZipFile path urls st
    = (Raise (if verbose (self st2)
              then CalledProcessError N
                     (CmdStr (Py.join " " (helper_cmd st2 path urls))) None
              else SystemExit (ExitCode N)),
       spawned (helper_cmd st2 path urls) None None None effect st2)
  ∧ ∀ s r s', delegate path urls s = (r, s') →
              r ≠ Raise (SystemExit (ExitMsg (could_not_download path urls))).
Proof.
  intros Hp Hskip Hh Hc HN. split.
  - unfold download. rewrite (bind_Return _ _ _ _ _ Hp).
    rewrite <- (app_nil_r urls) at 2. rewrite (fetch_from_skip _ _ _ _ _ _ Hskip).
    cbn [fetch_from]. unfold delegate. rewrite (bind_Return _ _ _ _ _ Hh).
    unfold mbind at 1, M_bind at 1, bind at 1. unfold get at 1.
    apply bind_Raise.
    rewrite (RunFacts.run_exited st2 _ true None None None N output effect Hc).
    by destruct (Z.eqb_spec N 0).
  - intros s r s' H. by eapply delegate_never_reports.
Qed.

(** C10: when the loop reaches a locator that opens with [zip:] or
    [jar:] and has no [!/], [download] raises [SystemExit] with the
    message for that locator, in the state the earlier locators left
    plus the line logged for this one: no URL is opened for it, no
    later locator is tried and the helper is not run. *)
Theorem archive_without_separator_aborts (path : string) (pre : list string)
    (url : string) (rest : list string) (st st0 st1 : State) :
  ensure_parent path st = (Return tt, st0) →
  skip ZipFile path pre st0 = Some st1 →
  archive_scheme url = true →
  Py.find url "!/" = None →
  download ZipFile path (pre ++ url :: rest) st
    = (Raise (SystemExit (ExitMsg (no_separator_message url))),
       downloading path url st1).
Proof.
  intros Hp Hskip Hs Hf. unfold download. rewrite (bind_Return _ _ _ _ _ Hp).
  rewrite (fetch_from_skip _ _ _ _ _ _ Hskip), fetch_from_cons.
  rewrite attempt_archive by done. by rewrite Hf.
Qed.

End WithZipFile.

Lemma archive_without_separator_aborts_witness :
  let st := Samples.state_web false [] 0 in
  let urls := ["http://mirror/junit.jar"; "zip:http://mirror/all.zip";
               "http://other/junit.jar"] in
  ∃ st', download Samples.sample_ZipFile "lib/junit.jar" urls st
         = (Raise (SystemExit (ExitMsg (no_separator_message "zip:http://mirror/all.zip"))),
            st')
         ∧ trace st' = [MakeDirs "lib"; UrlOpen "http://mirror/junit.jar"].
Proof.
  intros st urls.
  pose (st0 := snd (ensure_parent "lib/junit.jar" st)).
  pose (st1 := default st0
                 (skip Samples.sample_ZipFile "lib/junit.jar" ["http://mirror/junit.jar"] st0)).
  exists (downloading "lib/junit.jar" "zip:http://mirror/all.zip" st1).
  split; [|vm_compute; reflexivity].
  apply (archive_without_separator_aborts Samples.sample_ZipFile "lib/junit.jar"
           ["http://mirror/junit.jar"] "zip:http://mirror/all.zip"
           ["http://other/junit.jar"] st st0 st1); vm_compute; reflexivity.
Defined.

Lemma download_helper_failure_witness :
  let st := Samples.state_web false [] 1 in
  let urls := ["http://mirror/junit.jar"] in
  ∃ st', download Samples.sample_ZipFile "junit.jar" urls st
         = (Raise (SystemExit (ExitCode 1)), st').
Proof.
  intros st urls.
  pose (st0 := snd (ensure_parent "junit.jar" st)).
  pose (st1 := default st0 (skip Samples.sample_ZipFile "junit.jar" urls st0)).
  pose (st2 := snd (ensure_helper st1)).
  eexists.
  apply (proj1 (download_helper_failure Samples.sample_ZipFile "junit.jar" urls
                  st st0 st1 st2 1 "" id
                  ltac:(vm_compute; reflexivity) ltac:(vm_compute; reflexivity)
                  ltac:(vm_compute; reflexivity) ltac:(vm_compute; reflexivity)
                  ltac:(lia))).
Defined.

Lemma archive_entry_never_fetched_witness :
  let pages := [("http://host/all.zip", Body Samples.sample_zip)] in
  let st := Samples.state_web false pages 1 in
  let urls := ["http://down/a.txt"; "zip:http://host/all.zip!/lib/a.txt"] in
  Samples.sample_ZipFile Samples.sample_zip = inr {[ "lib/a.txt" := "hello" ]}
  ∧ ∃ st2, download Samples.sample_ZipFile "a.txt" urls st = delegate "a.txt" urls st2
           ∧ files st2 !! "a.txt" = None
           ∧ trace st2 = [UrlOpen "http://down/a.txt"; UrlOpen "http://host/all.zip"].
Proof.
  intros pages st urls. split; [reflexivity|].
  pose (st0 := snd (ensure_parent "a.txt" st)).
  destruct (archive_entry_never_fetched Samples.sample_ZipFile
              "a.txt" "http://down/a.txt" "zip:http://host/all.zip!/lib/a.txt"
              "http://host/all.zip" "lib/a.txt" "<urlopen error timed out>"
              "File is not a zip file" Samples.sample_zip st st0
              ltac:(reflexivity) ltac:(vm_compute; reflexivity)
              ltac:(reflexivity) ltac:(reflexivity) ltac:(reflexivity)
              ltac:(vm_compute; eauto) ltac:(vm_compute; reflexivity)
              ltac:(reflexivity)) as [Hd Hf].
  eexists. split; [exact Hd|]. split; vm_compute; reflexivity.
Defined.

Lemma fetch_recovers_and_stops_witness :
  let pages := [("http://b/junit.jar", Body "PK-junit")] in
  let st := Samples.state_web false pages 0 in
  let urls := ["http://a/junit.jar"; "http://b/junit.jar"; "http://c/junit.jar"] in
  ∃ st', fetch_from Samples.sample_ZipFile "junit.jar" urls urls st = (Return tt, st')
         ∧ trace st' = [UrlOpen "http://a/junit.jar"; UrlOpen "http://b/junit.jar";
                        FileWrite "junit.jar" "PK-junit"]
         ∧ files st' !! "junit.jar" = Some "PK-junit".
Proof.
  intros pages st urls. pose (all := urls). subst urls.
  destruct (fetch_recovers_and_stops Samples.sample_ZipFile "junit.jar" all
              "http://a/junit.jar" ["http://b/junit.jar"; "http://c/junit.jar"] st)
    as (_ & Hfail & _).
  destruct (Hfail (IOError "<urlopen error timed out>") I eq_refl eq_refl) as [_ Hnext].
  set (st1 := gave_up "junit.jar" "http://a/junit.jar" "http://a/junit.jar"
                (IOError "<urlopen error timed out>") st) in Hnext.
  destruct (fetch_recovers_and_stops Samples.sample_ZipFile "junit.jar" all
              "http://b/junit.jar" ["http://c/junit.jar"] st1)
    as (_ & _ & _ & _ & _ & Hok).
  specialize (Hok "PK-junit" eq_refl eq_refl eq_refl).
  eexists. split; [exact (eq_trans Hnext Hok)|]. split; vm_compute; reflexivity.
Defined.

End DownloadFacts.

(** ** File materialization *)

Module UpdateFacts.
Import Mx Obs MFacts.

Lemma writes_record_write path data st :
  writes (record (FileWrite path data) st) = S (writes st).
Proof.
  unfold writes. simpl. rewrite filter_app, length_app. simpl. lia.
Qed.

Lemma writes_record_read path st : writes (record (FileRead path) st) = writes st.
Proof.
  unfold writes. simpl. rewrite filter_app, length_app. simpl. lia.
Qed.

(** What a call that returns has done: [true] comes with exactly one
    write, of content the file did not hold; [false] comes with no
    write, on a file that holds the content. *)
Lemma update_file_returns path content st b st' :
  update_file path content st = (Return b, st') →
  (b = true →
     files st !! path ≠ Some content
     ∧ files st' = <[path := content]> (files st)
     ∧ writes st' = S (writes st))
  ∧ (b = false →
     files st !! path = Some content
     ∧ st' = record (FileRead path) st).
Proof.
  unfold update_file, path_exists, read_file, write_file. unfold_M. cbn beta.
  destruct (bool_decide (is_Some (files st !! path)) || bool_decide (path ∈ dirs st))
    eqn:Hex; cbn iota.
  - destruct (may_read (host st) path); cbn iota beta; [|done].
    destruct (files st !! path) as [old|] eqn:Hold; cbn iota beta.
    2:{ by destruct (bool_decide (path ∈ dirs st)). }
    destruct (decide (old = content)) as [->|Hne].
    + rewrite bool_decide_eq_true_2 by done. cbn iota beta.
      intros [= <- <-]. by split.
    + rewrite bool_decide_eq_false_2 by congruence. cbn iota beta.
      destruct (may_write _ path && _); cbn iota beta; [|done].
      intros [= <- <-]. split; [|done]. intros _.
      split; [congruence|]. split; [done|].
      change (writes (record (FileWrite path content) (record (FileRead path) st))
              = S (writes st)).
      by rewrite writes_record_write, writes_record_read.
  - apply orb_false_iff in Hex as [Hf _].
    apply bool_decide_eq_false in Hf.
    assert (files st !! path = None) as Hnone.
    { destruct (files st !! path); [|done]. destruct Hf. by eexists. }
    rewrite bool_decide_eq_false_2 by done. cbn iota beta.
    destruct (may_write _ path && _); cbn iota beta; [|done].
    intros [= <- <-]. split; [|done]. intros _.
    split; [congruence|]. split; [done|].
    change (writes (record (FileWrite path content) st) = S (writes st)).
    apply writes_record_write.
Qed.

(** C8 (as the code has it): of two calls in a row with the same
    content that both return, the first writes once when the file did
    not hold the content and not at all when it did, and returns [true]
    exactly when it wrote; the second reads the file, writes nothing
    and returns [false]; a call with other content after them writes
    exactly once more and returns [true]. *)
Theorem update_file_twice (path content : string) (st st1 st2 : State) (b1 b2 : bool) :
  update_file path content st = (Return b1, st1) →
  update_file path content st1 = (Return b2, st2) →
  (b1 = true ↔ files st !! path ≠ Some content)
  ∧ writes st1 = (writes st + (if b1 then 1 else 0))%nat
  ∧ b2 = false
  ∧ st2 = record (FileRead path) st1
  ∧ writes st2 = writes st1
  ∧ ∀ content' b3 st3,
      content' ≠ content →
      update_file path content' st2 = (Return b3, st3) →
      b3 = true
      ∧ writes st3 = S (writes st2)
      ∧ files st3 !! path = Some content'.
Proof.
  intros H1 H2.
  apply update_file_returns in H1 as [T1 F1].
  apply update_file_returns in H2 as [T2 F2].
  assert (files st1 !! path = Some content) as Hheld.
  { destruct b1.
    - destruct (T1 eq_refl) as (_ & -> & _). apply lookup_insert_eq.
    - destruct (F1 eq_refl) as (? & ->). done. }
  assert (b2 = false) as ->.
  { destruct b2; [|done]. by destruct (T2 eq_refl) as (? & _). }
  destruct (F2 eq_refl) as (_ & ->).
  split.
  { destruct b1; split; try done.
    - intros _. by destruct (T1 eq_refl).
    - intros Hne. by destruct (F1 eq_refl). }
  split.
  { destruct b1.
    - destruct (T1 eq_refl) as (_ & _ & ->). lia.
    - destruct (F1 eq_refl) as (_ & ->). rewrite writes_record_read. lia. }
  split; [done|]. split; [done|]. split; [apply writes_record_read|].
  intros content' b3 st3 Hne H3.
  apply update_file_returns in H3 as [T3 F3].
  destruct b3.
  - destruct (T3 eq_refl) as (_ & -> & ->). split; [done|]. split; [done|].
    apply lookup_insert_eq.
  - destruct (F3 eq_refl) as (Hheld' & _). cbn in Hheld'. congruence.
Qed.

Lemma update_file_twice_witness :
  let st := Samples.state0 false (Samples.host_exit 0 "") in
  ∃ st1 st2,
    update_file "build.properties" "a=1" st = (Return true, st1)
    ∧ update_file "build.properties" "a=1" st1 = (Return false, st2)
    ∧ writes st1 = 1%nat ∧ writes st2 = 1%nat.
Proof.
  intros st.
  pose (r1 := update_file "build.properties" "a=1" st).
  pose (r2 := update_file "build.properties" "a=1" (snd r1)).
  assert (r1 = (Return true, snd r1)) as H1 by (vm_compute; reflexivity).
  assert (r2 = (Return false, snd r2)) as H2 by (vm_compute; reflexivity).
  exists (snd r1), (snd r2).
  destruct (update_file_twice "build.properties" "a=1" st (snd r1) (snd r2)
              true false H1 H2) as (_ & W1 & _ & _ & W2 & _).
  split; [exact H1|]. split; [exact H2|]. split; [exact W1|].
  rewrite W2. exact W1.
Defined.

(** The claim C8 read for every file system fails on a file that
    already holds the content: the two calls write nothing. *)
Lemma update_file_one_write_counterexample :
  ¬ (∀ path content st b1 st1 b2 st2,
       update_file path content st = (Return b1, st1) →
       update_file path content st1 = (Return b2, st2) →
       writes st2 = S (writes st)).
Proof.
  intros H.
  pose (st := set_files {[ "build.properties" := "a=1" ]}
                (Samples.state0 false (Samples.host_exit 0 ""))).
  pose (r1 := update_file "build.properties" "a=1" st).
  pose (r2 := update_file "build.properties" "a=1" (snd r1)).
  assert (r1 = (Return false, snd r1)) as H1 by (vm_compute; reflexivity).
  assert (r2 = (Return false, snd r2)) as H2 by (vm_compute; reflexivity).
  specialize (H "build.properties" "a=1" st false (snd r1) false (snd r2) H1 H2).
  vm_compute in H. discriminate.
Qed.

End UpdateFacts.

(** ** One stream-draining worker, taken alone *)

Module RedirectFacts.
Import Mx Obs.

Lemma readline_app stream :
  let '(line, rest) := readline stream in stream = line +:+ rest.
Proof.
  induction stream as [|c s IH]; simpl; [done|].
  destruct (Ascii.eqb c "010"); [done|].
  destruct (readline s) as [line rest]. simpl. by rewrite IH.
Qed.

Lemma readline_length stream line rest :
  readline stream = (line, rest) →
  line ≠ EmptyString →
  (String.length rest < String.length stream)%nat.
Proof.
  intros H Hne. pose proof (readline_app stream) as Happ. rewrite H in Happ.
  subst stream. destruct line as [|c line]; [done|].
  assert (∀ a b, String.length (a +:+ b) = (String.length a + String.length b)%nat) as L.
  { clear. intros a b. induction a as [|c a IH]; [done|].
    change (S (String.length (a +:+ b))
            = S (String.length a + String.length b)). by rewrite IH. }
  rewrite L. simpl. lia.
Qed.

(** The worker calls the sink on the lines of the stream, in order. *)
Lemma redirect_lines fuel stream f st :
  redirect fuel stream f st
  = fold_left (λ s line, f line s) (lines_of fuel stream) st.
Proof.
  revert stream st. induction fuel as [|fuel IH]; intros stream st; simpl; [done|].
  destruct (readline stream) as [line rest].
  destruct (String.eqb line EmptyString); [done|]. simpl. apply IH.
Qed.

(** The sink is never called on the empty string. *)
Lemma lines_of_nonempty fuel stream :
  Forall (λ line, line ≠ EmptyString) (lines_of fuel stream).
Proof.
  revert stream. induction fuel as [|fuel IH]; intros stream; simpl; [constructor|].
  destruct (readline stream) as [line rest].
  destruct (String.eqb_spec line EmptyString); [constructor|].
  constructor; [done|apply IH].
Qed.

(** With enough turns the lines make up the whole stream. *)
Lemma lines_of_complete fuel stream :
  (String.length stream ≤ fuel)%nat →
  String.concat EmptyString (lines_of fuel stream) = stream.
Proof.
  revert stream. induction fuel as [|fuel IH]; intros stream Hlen.
  { destruct stream; [done|simpl in Hlen; lia]. }
  cbn [lines_of].
  destruct (readline stream) as [line rest] eqn:Hr.
  pose proof (readline_app stream) as Happ. rewrite Hr in Happ.
  destruct (String.eqb_spec line EmptyString) as [->|Hne].
  - destruct stream as [|c s]; [done|]. simpl in Hr.
    destruct (Ascii.eqb c "010"); [done|]. by destruct (readline s).
  - pose proof (readline_length _ _ _ Hr Hne) as Hlt.
    specialize (IH rest ltac:(lia)).
    destruct (lines_of fuel rest) as [|l ls] eqn:Hl.
    + simpl in IH. subst rest. simpl. rewrite Happ.
      clear. induction line as [|c line IH]; [done|].
      change (String c line = String c (line +:+ EmptyString)). by rewrite <- IH.
    + change (String.concat EmptyString (line :: l :: ls))
        with (line +:+ EmptyString +:+ String.concat EmptyString (l :: ls)).
      rewrite IH. by rewrite Happ.
Qed.

End RedirectFacts.


(** * Further properties of the modelled code *)

(** ** Batching: what the loop does when it ends *)

Module BatchMore.
Import Batch BatchFacts.

(** Where the inner loop stops short of the end, the item it stops at
    would take the running total to the bound or beyond. *)
Lemma scan_maximal limit l size :
  match drop (scan limit l size) l with
  | x :: _ => limit ≤ size + weight (take (scan limit l size) l) + (Py.len x + 1)
  | [] => True
  end.
Proof.
  revert size. induction l as [|y l IH]; intros size; [done|].
  cbn [scan]. cbv zeta.
  destruct (Z.ltb_spec (size + (Py.len y + 1)) limit) as [Hlt|Hge].
  - cbn [drop take]. specialize (IH (size + (Py.len y + 1))).
    destruct (drop _ l) as [|x r]; [done|].
    rewrite weight_cons. lia.
  - cbn [drop take weight fold_right]. lia.
Qed.



(** The batches are greedy: when a turn of the loop leaves items behind,
    the first item left behind would not have fitted into the batch. *)
Theorem batch_step_greedy (limit : Z) (javafilelist batch : list string)
    (x : string) (rest : list string) :
  batch_step limit javafilelist = (batch, x :: rest) →
  limit ≤ weight batch + (Py.len x + 1).
Proof.
  unfold batch_step. intros [= <- Hdrop].
  pose proof (scan_maximal limit javafilelist 0) as H.
  rewrite Hdrop in H. lia.
Qed.

Lemma batch_step_greedy_witness :
  batch_step 10 ["abc"; "de"; "fghi"; "j"] = (["abc"; "de"], ["fghi"; "j"])
  ∧ 10 ≤ weight ["abc"; "de"] + (Py.len "fghi" + 1).
Proof.
  split; [reflexivity|].
  apply (batch_step_greedy 10 ["abc"; "de"; "fghi"; "j"] ["abc"; "de"] "fghi" ["j"]).
  reflexivity.
Defined.


End BatchMore.

(** ** Running a child: launch failures and what a return means *)

Module RunMore.
Import Mx Obs MFacts.

(** A child that cannot be started is fatal whatever [nonZeroIsFatal]
    says: [run] logs the command line with the error, then raises the
    [OSError] again in verbose mode and [SystemExit(errno)] otherwise. *)
Theorem run_launch_failure (st : State) (args : list string) (fatal : bool)
    (out err : option sink) (cwd : option string) (errno : Z) (strerror : string) :
  run_child st args out err cwd = NotStarted errno strerror →
  run args fatal out err cwd st
  = (Raise (if verbose (self st) then OSError errno strerror
            else SystemExit (ExitCode errno)),
     print ("Error executing '" +:+ Py.join " " args +:+ "': "
              +:+ str_OSError errno strerror)
       (record (Exec args (run_cwd out err cwd)) (announced args st))).
Proof.
  intros Hc. unfold run_child, run_cwd in Hc.
  unfold run, announced, run_cwd. unfold_M.
  destruct (verbose (self st)) eqn:V; simpl;
    destruct out, err; simpl; rewrite ?Hc; simpl; rewrite ?V; done.
Qed.

Lemma run_launch_failure_witness :
  let h := mkHost (λ _ _ _, NotStarted 2 "No such file or directory")
                  (λ _ _, Fails (IOError "unreachable"))
                  (λ _, true) (λ _, true) (λ _, true) (λ _, None) "/maxine/mx" in
  let st := Samples.state0 false h in
  ∃ st', run ["gmake"] false None None None st
         = (Raise (SystemExit (ExitCode 2)), st')
         ∧ console st' = ["Error executing 'gmake': [Errno 2] No such file or directory"].
Proof.
  intros h st. eexists. split.
  - apply (run_launch_failure st ["gmake"] false None None None 2
             "No such file or directory"). reflexivity.
  - vm_compute. reflexivity.
Defined.



(** One worker of [run], taken alone: it calls the sink once per line of
    the stream, in order, never on the empty string, and the lines put
    end to end are the stream. *)
Theorem redirect_delivers_lines (fuel : nat) (stream : string) (f : sink) (st : State) :
  (String.length stream ≤ fuel)%nat →
  redirect fuel stream f st
    = fold_left (λ s line, f line s) (lines_of fuel stream) st
  ∧ Forall (λ line, line ≠ EmptyString) (lines_of fuel stream)
  ∧ String.concat EmptyString (lines_of fuel stream) = stream.
Proof.
  intros Hlen. split; [apply RedirectFacts.redirect_lines|].
  split; [apply RedirectFacts.lines_of_nonempty|].
  by apply RedirectFacts.lines_of_complete.
Qed.

Lemma redirect_delivers_lines_witness :
  let stream := "warning: a" +:+ Py.nl +:+ "error: b" in
  redirect 19 stream print (Samples.state0 false (Samples.host_exit 0 ""))
    = fold_left (λ s line, print line s) (lines_of 19 stream)
        (Samples.state0 false (Samples.host_exit 0 ""))
  ∧ lines_of 19 stream = ["warning: a" +:+ Py.nl; "error: b"].
Proof.
  intros stream. split; [|vm_compute; reflexivity].
  apply (redirect_delivers_lines 19 stream print). vm_compute. lia.
Defined.

End RunMore.

(** ** Lazy initialization: the command line it builds, and how it fails *)

Module InitMore.
Import Mx Obs MFacts InitFacts.

Lemma check_version_accepts output o0 o1 version more st :
  Py.split output = o0 :: o1 :: version :: more →
  o0 = "java" ∨ o0 = "openjdk" →
  o1 = "version" →
  version_accepted version = true →
  check_version output st = (Return tt, st).
Proof.
  intros Hsplit H0 -> Hv. unfold check_version, item, pyassert. unfold_M.
  rewrite Hsplit. simpl. rewrite Hv.
  by destruct H0 as [-> | ->].
Qed.

Lemma probe_version_d64_ok st toks output eff :
  let jv := java (self st) in
  java_args (self st) = Tokens toks →
  spawn (host st) (trace st) (d64_probe jv) None = Exited 0 output eff →
  probe_version st
  = (Return output,
     set_self (set_java_args (Tokens ("-d64" :: toks)) (self st))
       (after_child (d64_probe jv) eff st)).
Proof.
  intros jv Ha Hc. unfold probe_version, java_args_list, after_child. unfold_M.
  cbn beta. fold jv. rewrite Hc. simpl. by rewrite Ha.
Qed.

(** The tail of [init_java] once the version is accepted. *)
Lemma init_java_tail output st toks :
  check_version output st = (Return tt, st) →
  java_args (self st) = Tokens toks →
  (check_version output ≫= λ _,
     dbg ← get (λ s, java_dbg (self s));
     when dbg (l ← java_args_list; assign (set_java_args (Tokens (l ++ debug_args))));;
     assign (set_java_initialized true)) st
  = (Return tt,
     set_self (set_java_initialized true
                 (set_java_args
                    (Tokens (toks ++ if java_dbg (self st) then debug_args else []))
                    (self st))) st).
Proof.
  intros Hc Ha. rewrite (bind_Return _ _ _ _ _ Hc).
  unfold java_args_list. unfold_M.
  destruct (java_dbg (self st)) eqn:D; simpl; rewrite ?Ha; simpl.
  - done.
  - rewrite app_nil_r. destruct st as [e f d c t h]. simpl in *.
    destruct e; simpl in *. by subst.
Qed.

Section WithShlex.
Variable shlex_split : string → string + list string.

(** After [init_java] on a JVM that accepts [-d64] and prints an
    accepted version, [format_java_cmd(args)] is the executable, the
    tokenized prefix options, [-d64], the tokenized options, the debugger
    options when [java_dbg] is set, the tokenized suffix options and
    [args]; the only child started is the [-d64] probe. *)
Theorem format_java_cmd_d64 (st st1 : State) (args toks : list string)
    (output : string) (eff : gmap string string → gmap string string)
    (o0 o1 version : string) (more : list string) :
  java_initialized (self st) = false →
  split_vm_args shlex_split st = (Return tt, st1) →
  java_args (self st1) = Tokens toks →
  spawn (host st) (trace st) (d64_probe (java (self st))) None = Exited 0 output eff →
  Py.split output = o0 :: o1 :: version :: more →
  o0 = "java" ∨ o0 = "openjdk" →
  o1 = "version" →
  version_accepted version = true →
  ∃ st',
    format_java_cmd shlex_split args st
    = (Return ([java (self st)] ++ java_args_pfx (self st1)
                 ++ ("-d64" :: toks ++ if java_dbg (self st) then debug_args else [])
                 ++ java_args_sfx (self st1) ++ args), st')
    ∧ trace st' = trace st ++ [Exec (d64_probe (java (self st))) None]
    ∧ java_initialized (self st') = true.
Proof.
  intros I Hsplit Ha Hc Hout H0 H1 Hv.
  pose proof (split_vm_args_frame _ _ _ _ Hsplit) as (W & _ & J & D & _).
  assert (host st1 = host st ∧ trace st1 = trace st) as [Hh Ht] by (by rewrite W).
  pose proof (probe_version_d64_ok st1 toks output eff) as P. cbn zeta in P.
  rewrite J, Hh, Ht in P. specialize (P Ha Hc).
  set (st2 := set_self _ _) in P.
  assert (init_java shlex_split st
          = (Return tt,
             set_self (set_java_initialized true
                         (set_java_args
                            (Tokens (("-d64" :: toks)
                                       ++ if java_dbg (self st2) then debug_args else []))
                            (self st2))) st2)) as Hinit.
  { unfold init_java, init_java_body.
    unfold mbind at 1, M_bind at 1, bind at 1. unfold get at 1. rewrite I.
    rewrite (bind_Return _ _ _ _ _ Hsplit), (bind_Return _ _ _ _ _ P).
    apply init_java_tail; [|done].
    by eapply check_version_accepts. }
  eexists. split.
  - unfold format_java_cmd. rewrite (bind_Return _ _ _ _ _ Hinit).
    rewrite java_cmd_pure. cbn. unfold ready_cmd. cbn. rewrite D, J. reflexivity.
  - cbn. by rewrite Ht.
Qed.

(** The same on a JVM that refuses [-d64] (the probe exits non-zero)
    and answers the plain probe: the command line has no [-d64], and both
    probes were started, in that order. *)
Theorem format_java_cmd_no_d64 (st st1 : State) (args toks : list string)
    (rc1 : Z) (out1 output : string) (eff1 eff : gmap string string → gmap string string)
    (o0 o1 version : string) (more : list string) :
  java_initialized (self st) = false →
  split_vm_args shlex_split st = (Return tt, st1) →
  java_args (self st1) = Tokens toks →
  spawn (host st) (trace st) (d64_probe (java (self st))) None = Exited rc1 out1 eff1 →
  rc1 ≠ 0 →
  spawn (host st) (trace st ++ [Exec (d64_probe (java (self st))) None])
        (plain_probe (java (self st))) None = Exited 0 output eff →
  Py.split output = o0 :: o1 :: version :: more →
  o0 = "java" ∨ o0 = "openjdk" →
  o1 = "version" →
  version_accepted version = true →
  ∃ st',
    format_java_cmd shlex_split args st
    = (Return ([java (self st)] ++ java_args_pfx (self st1)
                 ++ (toks ++ if java_dbg (self st) then debug_args else [])
                 ++ java_args_sfx (self st1) ++ args), st')
    ∧ trace st' = trace st ++ [Exec (d64_probe (java (self st))) None;
                               Exec (plain_probe (java (self st))) None]
    ∧ java_initialized (self st') = true.
Proof.
  intros I Hsplit Ha Hc1 N1 Hc Hout H0 H1 Hv.
  pose proof (split_vm_args_frame _ _ _ _ Hsplit) as (W & _ & J & D & _).
  assert (host st1 = host st ∧ trace st1 = trace st) as [Hh Ht] by (by rewrite W).
  pose proof (probe_version_both_fail st1 rc1 out1 eff1 0 output eff) as P.
  cbn zeta in P. rewrite J, Hh, Ht in P. specialize (P Hc1 N1 Hc).
  cbn [Z.eqb] in P.
  set (st2 := after_child _ _ _) in P.
  assert (init_java shlex_split st
          = (Return tt,
             set_self (set_java_initialized true
                         (set_java_args
                            (Tokens (toks ++ if java_dbg (self st2) then debug_args else []))
                            (self st2))) st2)) as Hinit.
  { unfold init_java, init_java_body.
    unfold mbind at 1, M_bind at 1, bind at 1. unfold get at 1. rewrite I.
    rewrite (bind_Return _ _ _ _ _ Hsplit), (bind_Return _ _ _ _ _ P).
    apply init_java_tail; [|done].
    by eapply check_version_accepts. }
  eexists. split.
  - unfold format_java_cmd. rewrite (bind_Return _ _ _ _ _ Hinit).
    rewrite java_cmd_pure. cbn. unfold ready_cmd. cbn. rewrite D, J. reflexivity.
  - cbn. rewrite Ht. by rewrite <- app_assoc.
Qed.

Lemma split_all_concat (l : list string) (ts : list (list string)) st :
  Forall2 (λ s t, shlex_split (Py.lstrip "@" s) = inr t) l ts →
  split_all shlex_split l st = (Return (concat ts), st).
Proof.
  intros H. induction H as [|s t l ts Hs _ IH]; [done|].
  cbn [split_all]. unfold delAtAndSplit. rewrite Hs.
  unfold_M. by rewrite IH.
Qed.

(** The three option attributes after tokenizing: each string is
    stripped of its leading [@] characters and split; the prefix and
    suffix lists are split string by string and the tokens concatenated
    in order.  Nothing else changes. *)
Theorem split_vm_args_tokens (st : State) (raw : string) (toks : list string)
    (pfxs sfxs : list (list string)) :
  java_args (self st) = Raw raw →
  shlex_split (Py.lstrip "@" raw) = inr toks →
  Forall2 (λ s t, shlex_split (Py.lstrip "@" s) = inr t) (java_args_pfx (self st)) pfxs →
  Forall2 (λ s t, shlex_split (Py.lstrip "@" s) = inr t) (java_args_sfx (self st)) sfxs →
  split_vm_args shlex_split st
  = (Return tt,
     set_self (set_java_args_sfx (concat sfxs)
                 (set_java_args_pfx (concat pfxs)
                    (set_java_args (Tokens toks) (self st)))) st).
Proof.
  intros Ha Hs Hp Hx. unfold split_vm_args, delAtAndSplit. unfold_M.
  rewrite Ha, Hs. cbn.
  rewrite (split_all_concat _ _ _ Hp). cbn.
  by rewrite (split_all_concat _ _ _ Hx).
Qed.


(** A [java] executable that cannot be started is not handled by
    [init_java]: the [OSError] of the [-d64] probe leaves it, and the
    plain probe is not tried. *)
Theorem init_java_probe_not_started (st st1 : State) (errno : Z) (strerror : string) :
  java_initialized (self st) = false →
  split_vm_args shlex_split st = (Return tt, st1) →
  spawn (host st) (trace st) (d64_probe (java (self st))) None
    = NotStarted errno strerror →
  init_java shlex_split st
  = (Raise (OSError errno strerror),
     record (Exec (d64_probe (java (self st))) None) st1).
Proof.
  intros I Hsplit Hc.
  pose proof (split_vm_args_frame _ _ _ _ Hsplit) as (W & _ & J & _ & _).
  assert (host st1 = host st ∧ trace st1 = trace st) as [Hh Ht] by (by rewrite W).
  pose proof (probe_version_not_started st1 errno strerror) as P.
  cbn zeta in P. rewrite J, Hh, Ht in P. specialize (P Hc).
  unfold init_java, init_java_body.
  unfold mbind at 1, M_bind at 1, bind at 1. unfold get at 1. rewrite I.
  rewrite (bind_Return _ _ _ _ _ Hsplit). by apply bind_Raise.
Qed.

(** Output of the probe that is not a version banner: with fewer than
    three words [init_java] ends with [IndexError]; with a first word
    other than [java] and [openjdk], or a second word other than
    [version], it ends with [AssertionError]. *)
Theorem init_java_malformed_banner (st st1 st2 : State) (output : string) :
  java_initialized (self st) = false →
  split_vm_args shlex_split st = (Return tt, st1) →
  probe_version st1 = (Return output, st2) →
  (Py.split output = [] → init_java shlex_split st = (Raise IndexError, st2))
  ∧ (∀ o0 rest, Py.split output = o0 :: rest → o0 ≠ "java" → o0 ≠ "openjdk" →
       init_java shlex_split st = (Raise AssertionError, st2))
  ∧ (∀ o0, Py.split output = [o0] → o0 = "java" ∨ o0 = "openjdk" →
       init_java shlex_split st = (Raise IndexError, st2))
  ∧ (∀ o0 o1 rest, Py.split output = o0 :: o1 :: rest →
       o0 = "java" ∨ o0 = "openjdk" → o1 ≠ "version" →
       init_java shlex_split st = (Raise AssertionError, st2))
  ∧ (∀ o0, Py.split output = [o0; "version"] → o0 = "java" ∨ o0 = "openjdk" →
       init_java shlex_split st = (Raise IndexError, st2)).
Proof.
  intros I Hsplit P.
  assert (∀ e, check_version output st2 = (Raise e, st2) →
               init_java shlex_split st = (Raise e, st2)) as Hvia.
  { intros e Hc. unfold init_java, init_java_body.
    unfold mbind at 1, M_bind at 1, bind at 1. unfold get at 1. rewrite I.
    rewrite (bind_Return _ _ _ _ _ Hsplit), (bind_Return _ _ _ _ _ P).
    by apply bind_Raise. }
  repeat split.
  - intros H. apply Hvia. unfold check_version, item. unfold_M. by rewrite H.
  - intros o0 rest H N1 N2. apply Hvia. unfold check_version, item, pyassert.
    unfold_M. rewrite H. simpl.
    destruct (String.eqb_spec o0 "java"); [done|].
    by destruct (String.eqb_spec o0 "openjdk").
  - intros o0 H H0. apply Hvia. unfold check_version, item, pyassert.
    unfold_M. rewrite H. simpl. by destruct H0 as [-> | ->].
  - intros o0 o1 rest H H0 N. apply Hvia. unfold check_version, item, pyassert.
    unfold_M. rewrite H. simpl.
    destruct (String.eqb_spec o1 "version"); [done|].
    by destruct H0 as [-> | ->].
  - intros o0 H H0. apply Hvia. unfold check_version, item, pyassert.
    unfold_M. rewrite H. simpl. by destruct H0 as [-> | ->].
Qed.

(** What a failed [init_java] leaves behind once the options were
    tokenized: the flag is still unset and [java_args] is a list. *)
Lemma init_java_body_raise st st1 e st' :
  split_vm_args shlex_split st = (Return tt, st1) →
  init_java_body shlex_split st = (Raise e, st') →
  java_initialized (self st') = java_initialized (self st)
  ∧ ∃ l, java_args (self st') = Tokens l.
Proof.
  intros Hsplit H. unfold init_java_body in H.
  rewrite (bind_Return _ _ _ _ _ Hsplit) in H.
  pose proof (split_vm_args_frame _ _ _ _ Hsplit) as (_ & I1 & _ & _ & _).
  assert (∃ l, java_args (self st1) = Tokens l) as [l1 Hl1].
  { revert Hsplit. unfold split_vm_args, delAtAndSplit. unfold_M.
    destruct (java_args (self st)); simpl; [|done].
    destruct (shlex_split _); simpl; [done|].
    match goal with |- context [split_all _ ?l ?s] =>
      destruct (split_all_pure shlex_split l s) as [[p|e0] ->] end; simpl; [|done].
    match goal with |- context [split_all _ ?l ?s] =>
      destruct (split_all_pure shlex_split l s) as [[p'|e0] ->] end; simpl; [|done].
    intros [= <-]. by eexists. }
  rewrite <- I1. clear Hsplit I1.
  apply bind_inv in H as [(e0 & Hprobe & _)|(output & st2 & Hprobe & H)].
  - revert Hprobe. unfold probe_version, java_args_list. unfold_M. cbn beta.
    destruct (spawn _ _ (d64_probe _) _) as [errno msg|rc out eff]; simpl.
    { intros [= <- <-]. eauto. }
    destruct (rc =? 0); simpl.
    { rewrite Hl1. simpl. done. }
    destruct (spawn _ _ (plain_probe _) _) as [errno msg|rc2 out2 eff2]; simpl.
    { intros [= <- <-]. eauto. }
    destruct (rc2 =? 0); simpl; [done|]. intros [= <- <-]. eauto.
  - assert (java_initialized (self st2) = java_initialized (self st1)
            ∧ ∃ l, java_args (self st2) = Tokens l) as [I2 [l2 Hl2]].
    { revert Hprobe. unfold probe_version, java_args_list. unfold_M. cbn beta.
      destruct (spawn _ _ (d64_probe _) _) as [errno msg|rc out eff]; simpl; [done|].
      destruct (rc =? 0); simpl.
      { rewrite Hl1. simpl. intros [= <- <-]. eauto. }
      destruct (spawn _ _ (plain_probe _) _) as [errno msg|rc2 out2 eff2]; simpl; [done|].
      destruct (rc2 =? 0); simpl; [|done]. intros [= <- <-]. eauto. }
    rewrite <- I2.
    destruct (check_version_pure output st2) as [rc Hc].
    revert H. unfold_M. rewrite Hc. unfold java_args_list. unfold_M.
    destruct rc as [[]|e1].
    + destruct (java_dbg (self st2)); simpl; rewrite ?Hl2; simpl; done.
    + intros [= <- <-]. eauto.
Qed.

(** [init_java] cannot be tried again after it has failed past the
    tokenizing: the flag is still unset, so the body runs, and
    [java_args] is a list by then, which has no [lstrip]. *)
Theorem init_java_not_reentrant (st st1 st' : State) (e : exn) :
  java_initialized (self st) = false →
  split_vm_args shlex_split st = (Return tt, st1) →
  init_java shlex_split st = (Raise e, st') →
  init_java shlex_split st' = (Raise AttributeError, st').
Proof.
  intros I Hsplit H.
  assert (init_java_body shlex_split st = (Raise e, st')) as Hbody.
  { revert H. unfold init_java. unfold_M. by rewrite I. }
  destruct (init_java_body_raise _ _ _ _ Hsplit Hbody) as [I' [l Hl]].
  unfold init_java, init_java_body, split_vm_args. unfold_M.
  by rewrite I', I, Hl.
Qed.

End WithShlex.

Lemma format_java_cmd_d64_witness :
  let st := Samples.state0 false (Samples.host_java 0 0 (Samples.banner "1.7.0_05")) in
  ∃ st', format_java_cmd Samples.shlex_words ["-jar"; "x.jar"] st
         = (Return [Samples.java0; "-d64"; "-ea"; "-Xss2m"; "-Xmx1g"; "-jar"; "x.jar"], st').
Proof.
  intros st.
  pose (st1 := snd (split_vm_args Samples.shlex_words st)).
  destruct (format_java_cmd_d64 Samples.shlex_words st st1 ["-jar"; "x.jar"]
              ["-ea"; "-Xss2m"; "-Xmx1g"] (Samples.banner "1.7.0_05") id
              "java" "version" (Py.dquote +:+ "1.7.0_05" +:+ Py.dquote)
              ["Java(TM)"; "SE"; "Runtime"; "Environment"]
              ltac:(reflexivity) ltac:(vm_compute; reflexivity) ltac:(reflexivity)
              ltac:(reflexivity) ltac:(vm_compute; reflexivity) ltac:(by left)
              ltac:(reflexivity) ltac:(vm_compute; reflexivity))
    as (st' & H & _).
  exists st'. exact H.
Defined.

Lemma format_java_cmd_no_d64_witness :
  let st := Samples.state0 false (Samples.host_java 1 0 (Samples.banner "1.6.0_26")) in
  ∃ st', format_java_cmd Samples.shlex_words ["-version"] st
         = (Return [Samples.java0; "-ea"; "-Xss2m"; "-Xmx1g"; "-version"], st')
         ∧ trace st' = [Exec (d64_probe Samples.java0) None;
                        Exec (plain_probe Samples.java0) None].
Proof.
  intros st.
  pose (st1 := snd (split_vm_args Samples.shlex_words st)).
  destruct (format_java_cmd_no_d64 Samples.shlex_words st st1 ["-version"]
              ["-ea"; "-Xss2m"; "-Xmx1g"] 1 (Samples.banner "1.6.0_26")
              (Samples.banner "1.6.0_26") id id
              "java" "version" (Py.dquote +:+ "1.6.0_26" +:+ Py.dquote)
              ["Java(TM)"; "SE"; "Runtime"; "Environment"]
              ltac:(reflexivity) ltac:(vm_compute; reflexivity) ltac:(reflexivity)
              ltac:(reflexivity) ltac:(lia) ltac:(reflexivity)
              ltac:(vm_compute; reflexivity) ltac:(by left)
              ltac:(reflexivity) ltac:(vm_compute; reflexivity))
    as (st' & H & T & _).
  exists st'. split; [exact H | exact T].
Defined.

Lemma split_vm_args_tokens_witness :
  let e := mkEnv false false Samples.java0 "/opt/jdk6/bin/javac"
                 (Raw "@-ea -Xmx1g") ["@-dsa"; "-Da=1 -Db=2"] ["@@-esa"] false in
  let st := set_self e (Samples.state0 false (Samples.host_exit 0 "")) in
  ∃ st', split_vm_args Samples.shlex_words st = (Return tt, st')
         ∧ java_args (self st') = Tokens ["-ea"; "-Xmx1g"]
         ∧ java_args_pfx (self st') = ["-dsa"; "-Da=1"; "-Db=2"]
         ∧ java_args_sfx (self st') = ["-esa"].
Proof.
  intros e st. eexists. split.
  - apply (split_vm_args_tokens Samples.shlex_words st "@-ea -Xmx1g" ["-ea"; "-Xmx1g"]
             [["-dsa"]; ["-Da=1"; "-Db=2"]] [["-esa"]]);
      [reflexivity | reflexivity | repeat constructor | repeat constructor].
  - repeat split.
Defined.


Lemma init_java_probe_not_started_witness :
  let h := mkHost (λ _ _ _, NotStarted 2 "No such file or directory")
                  (λ _ _, Fails (IOError "unreachable"))
                  (λ _, true) (λ _, true) (λ _, true) (λ _, None) "/maxine/mx" in
  let st := Samples.state0 false h in
  ∃ st', init_java Samples.shlex_words st
         = (Raise (OSError 2 "No such file or directory"), st')
         ∧ trace st' = [Exec (d64_probe Samples.java0) None].
Proof.
  intros h st.
  pose (st1 := snd (split_vm_args Samples.shlex_words st)).
  eexists. split.
  - apply (init_java_probe_not_started Samples.shlex_words st st1 2
             "No such file or directory");
      [reflexivity | vm_compute; reflexivity | reflexivity].
  - vm_compute. reflexivity.
Defined.

Lemma init_java_malformed_banner_witness :
  let st := Samples.state0 false
              (Samples.host_java 0 0 "Picked up _JAVA_OPTIONS: -Xmx512m") in
  ∃ st', init_java Samples.shlex_words st = (Raise AssertionError, st').
Proof.
  intros st.
  pose (st1 := snd (split_vm_args Samples.shlex_words st)).
  pose (st2 := snd (probe_version st1)).
  destruct (init_java_malformed_banner Samples.shlex_words st st1 st2
              "Picked up _JAVA_OPTIONS: -Xmx512m"
              ltac:(reflexivity) ltac:(vm_compute; reflexivity)
              ltac:(vm_compute; reflexivity)) as (_ & H & _).
  exists st2.
  apply (H "Picked" ["up"; "_JAVA_OPTIONS:"; "-Xmx512m"]);
    [vm_compute; reflexivity | discriminate | discriminate].
Defined.

Lemma init_java_not_reentrant_witness :
  let st := Samples.state0 false (Samples.host_java 1 0 (Samples.banner "1.8.0_20")) in
  ∃ e st', init_java Samples.shlex_words st = (Raise e, st')
           ∧ init_java Samples.shlex_words st' = (Raise AttributeError, st').
Proof.
  intros st.
  pose (st1 := snd (split_vm_args Samples.shlex_words st)).
  pose (r := init_java Samples.shlex_words st).
  assert (r = (Raise (SystemExit (ExitMsg
                 (version_message (Py.dquote +:+ "1.8.0_20" +:+ Py.dquote)))), snd r)) as H
    by (vm_compute; reflexivity).
  eexists _, (snd r). split; [exact H|].
  apply (init_java_not_reentrant Samples.shlex_words st st1 (snd r) _
           ltac:(reflexivity) ltac:(vm_compute; reflexivity) H).
Defined.

End InitMore.

(** ** Content fetching: the directory, the destination and the helper *)

Module DownloadMore.
Import Mx Obs MFacts DownloadFacts.

(** The helper is compiled first when its class file is missing. *)
Lemma ensure_helper_missing st :
  let myDir := mx_dir (host st) in
  let javaClass := Py.path_join myDir "URLConnectionDownload.class" in
  files st !! javaClass = None →
  javaClass ∉ dirs st →
  ensure_helper st
  = check_call [javac (self st); "-d"; myDir;
                Py.path_join myDir "URLConnectionDownload.java"] st.
Proof.
  intros myDir javaClass Hf Hd. unfold ensure_helper, path_exists. unfold_M.
  cbn beta. fold myDir. fold javaClass. rewrite Hf.
  rewrite (bool_decide_eq_false_2 (is_Some None)) by (by intros [? ?]).
  by rewrite (bool_decide_eq_false_2 _ Hd).
Qed.

(** A class file that is in place and not older than its source is used
    as it is: no child is started. *)
Lemma ensure_helper_fresh st data tc ts :
  let myDir := mx_dir (host st) in
  let javaClass := Py.path_join myDir "URLConnectionDownload.class" in
  let javaSource := Py.path_join myDir "URLConnectionDownload.java" in
  files st !! javaClass = Some data →
  getmtime (host st) javaClass = Some tc →
  getmtime (host st) javaSource = Some ts →
  ts ≤ tc →
  ensure_helper st = (Return tt, st).
Proof.
  intros myDir javaClass javaSource Hf Hc Hs Hle.
  unfold ensure_helper, path_exists, path_getmtime. unfold_M.
  cbn beta. fold myDir. fold javaClass. fold javaSource. rewrite Hf.
  rewrite (bool_decide_eq_true_2 (is_Some (Some data))) by (by eexists).
  rewrite orb_true_l. cbv beta iota. rewrite Hc. cbv beta iota. rewrite Hs.
  cbv beta iota. destruct (Z.ltb_spec tc ts); [lia|done].
Qed.

Section WithZipFile.
Variable ZipFile : string → string + gmap string string.

(** When the directory of the destination is missing and cannot be
    created, [download] ends with the [OSError] of [os.makedirs]: no URL
    is opened and nothing is logged. *)
Theorem download_parent_failure (path : string) (urls : list string) (st : State) :
  Py.dirname path ≠ EmptyString →
  files st !! Py.dirname path = None →
  Py.dirname path ∉ dirs st →
  may_mkdir (host st) (Py.dirname path) = false →
  download ZipFile path urls st
  = (Raise (OSError 13 "Permission denied"), record (MakeDirs (Py.dirname path)) st).
Proof.
  intros Hne Hf Hd Hm. unfold download. apply bind_Raise.
  unfold ensure_parent, path_exists, makedirs. unfold_M. cbn beta. rewrite Hf.
  rewrite (bool_decide_eq_false_2 (is_Some None)) by (by intros [? ?]).
  rewrite (bool_decide_eq_false_2 _ Hd).
  destruct (String.eqb_spec (Py.dirname path) EmptyString); [done|].
  cbn. by rewrite Hm.
Qed.


(** Only [IOError] and [BadZipfile] are recovered from: any other
    exception raised while opening or reading a plain URL ends
    [download] at that locator. *)
Theorem download_other_exception_escapes (path : string) (all : list string)
    (url : string) (urls : list string) (e : exn) (st : State) :
  archive_scheme url = false →
  urlopen (host st) (trace st) url = Fails e →
  ¬ recoverable e →
  fetch_from ZipFile path all (url :: urls) st
  = (Raise e, record (UrlOpen url) (downloading path url st)).
Proof.
  intros Hs Hu He. rewrite fetch_from_cons, attempt_plain by done.
  cbn zeta. rewrite Hu. destruct e; simpl in *; try done; by destruct He.
Qed.

(** When every listed URL has failed, the helper's class file is in
    place and fresh, and the helper exits with zero, [download] returns
    normally: the helper was the only child started. *)
Theorem download_helper_success (path : string) (urls : list string)
    (st st0 st1 : State) (data output : string) (tc ts : Z)
    (effect : gmap string string → gmap string string) :
  let myDir := mx_dir (host st1) in
  let javaClass := Py.path_join myDir "URLConnectionDownload.class" in
  let javaSource := Py.path_join myDir "URLConnectionDownload.java" in
  ensure_parent path st = (Return tt, st0) →
  skip ZipFile path urls st0 = Some st1 →
  files st1 !! javaClass = Some data →
  getmtime (host st1) javaClass = Some tc →
  getmtime (host st1) javaSource = Some ts →
  ts ≤ tc →
  spawn (host st1) (trace st1) (helper_cmd st1 path urls) None = Exited 0 output effect →
  download ZipFile path urls st
  = (Return tt, spawned (helper_cmd st1 path urls) None None None effect st1).
Proof.
  intros myDir javaClass javaSource Hp Hskip Hf Htc Hts Hle Hc.
  pose proof (ensure_helper_fresh st1 data tc ts Hf Htc Hts Hle) as Hh.
  unfold download. rewrite (bind_Return _ _ _ _ _ Hp).
  rewrite <- (app_nil_r urls) at 2. rewrite (fetch_from_skip _ _ _ _ _ _ _ Hskip).
  cbn [fetch_from]. unfold delegate. rewrite (bind_Return _ _ _ _ _ Hh).
  unfold mbind at 1, M_bind at 1, bind at 1. unfold get at 1.
  pose proof (RunFacts.run_exited st1 _ true None None None 0 output effect Hc) as Hrun.
  cbn in Hrun. by rewrite (bind_Return _ _ _ _ _ Hrun).
Qed.

(** When every listed URL has failed and the helper's class file is
    missing, [javac] is run on its source first; a compiler that exits
    non-zero ends [download] with [CalledProcessError], and the helper is
    not started. *)
Theorem download_helper_compile_failure (path : string) (urls : list string)
    (st st0 st1 : State) (N : Z) (output : string)
    (effect : gmap string string → gmap string string) :
  let myDir := mx_dir (host st1) in
  let javaClass := Py.path_join myDir "URLConnectionDownload.class" in
  let cmd := [javac (self st1); "-d"; myDir;
              Py.path_join myDir "URLConnectionDownload.java"] in
  ensure_parent path st = (Return tt, st0) →
  skip ZipFile path urls st0 = Some st1 →
  files st1 !! javaClass = None →
  javaClass ∉ dirs st1 →
  spawn (host st1) (trace st1) cmd None = Exited N output effect →
  N ≠ 0 →
  download ZipFile path urls st
  = (Raise (CalledProcessError N (CmdList cmd) None), after_child cmd effect st1).
Proof.
  intros myDir javaClass cmd Hp Hskip Hf Hd Hc HN.
  unfold download. rewrite (bind_Return _ _ _ _ _ Hp).
  rewrite <- (app_nil_r urls) at 2. rewrite (fetch_from_skip _ _ _ _ _ _ _ Hskip).
  cbn [fetch_from]. unfold delegate. apply bind_Raise.
  rewrite (ensure_helper_missing st1 Hf Hd). fold myDir. fold cmd.
  unfold check_call, popen_wait, after_child. unfold_M. rewrite Hc. cbn.
  by destruct (Z.eqb_spec N 0).
Qed.

End WithZipFile.

Lemma download_parent_failure_witness :
  let h := mkHost (λ _ _ _, Exited 0 "" id)
                  (λ _ _, Body "PK-junit")
                  (λ _, true) (λ _, true) (λ _, false) (λ _, None) "/maxine/mx" in
  let st := Samples.state0 false h in
  download Samples.sample_ZipFile "lib/junit.jar" ["http://mirror/junit.jar"] st
  = (Raise (OSError 13 "Permission denied"), record (MakeDirs "lib") st).
Proof.
  intros h st.
  apply (download_parent_failure Samples.sample_ZipFile "lib/junit.jar"
           ["http://mirror/junit.jar"] st);
    [discriminate | reflexivity | vm_compute; set_solver | reflexivity].
Defined.


Lemma download_other_exception_escapes_witness :
  let h := mkHost (λ _ _ _, Exited 0 "" id)
                  (λ _ _, Fails (ValueError "unknown url type: mirror/junit.jar"))
                  (λ _, true) (λ _, true) (λ _, true) (λ _, None) "/maxine/mx" in
  let st := Samples.state0 false h in
  ∃ st', fetch_from Samples.sample_ZipFile "junit.jar" [] ["mirror/junit.jar"; "http://b/junit.jar"] st
         = (Raise (ValueError "unknown url type: mirror/junit.jar"), st')
         ∧ trace st' = [UrlOpen "mirror/junit.jar"].
Proof.
  intros h st. eexists. split.
  - apply (download_other_exception_escapes Samples.sample_ZipFile "junit.jar" []
             "mirror/junit.jar" ["http://b/junit.jar"]
             (ValueError "unknown url type: mirror/junit.jar") st);
      [reflexivity | reflexivity | by intros []].
  - reflexivity.
Defined.

Lemma download_helper_success_witness :
  let st := Samples.state_web false [] 0 in
  ∃ st', download Samples.sample_ZipFile "junit.jar" ["http://mirror/junit.jar"] st
         = (Return tt, st')
         ∧ trace st' = [UrlOpen "http://mirror/junit.jar";
                        Exec [Samples.java0; "-cp"; "/maxine/mx"; "URLConnectionDownload";
                              "junit.jar"; "http://mirror/junit.jar"] None].
Proof.
  intros st.
  pose (st0 := snd (ensure_parent "junit.jar" st)).
  pose (st1 := default st0
                 (skip Samples.sample_ZipFile "junit.jar" ["http://mirror/junit.jar"] st0)).
  eexists. split.
  - apply (download_helper_success Samples.sample_ZipFile "junit.jar"
             ["http://mirror/junit.jar"] st st0 st1 "" "" 0 0 id);
      [vm_compute; reflexivity | vm_compute; reflexivity | vm_compute; reflexivity
      | reflexivity | reflexivity | lia | vm_compute; reflexivity].
  - vm_compute. reflexivity.
Defined.

Lemma download_helper_compile_failure_witness :
  let st := Samples.state0 false (Samples.host_exit 1 "") in
  ∃ st', download Samples.sample_ZipFile "junit.jar" ["http://mirror/junit.jar"] st
         = (Raise (CalledProcessError 1
                     (CmdList ["/opt/jdk6/bin/javac"; "-d"; "/maxine/mx";
                               "/maxine/mx/URLConnectionDownload.java"]) None), st')
         ∧ trace st' = [UrlOpen "http://mirror/junit.jar";
                        Exec ["/opt/jdk6/bin/javac"; "-d"; "/maxine/mx";
                              "/maxine/mx/URLConnectionDownload.java"] None].
Proof.
  intros st.
  pose (st0 := snd (ensure_parent "junit.jar" st)).
  pose (st1 := default st0
                 (skip Samples.sample_ZipFile "junit.jar" ["http://mirror/junit.jar"] st0)).
  eexists. split.
  - apply (download_helper_compile_failure Samples.sample_ZipFile "junit.jar"
             ["http://mirror/junit.jar"] st st0 st1 1 "" id);
      [vm_compute; reflexivity | vm_compute; reflexivity | vm_compute; reflexivity
      | vm_compute; set_solver | vm_compute; reflexivity | lia].
  - vm_compute. reflexivity.
Defined.

End DownloadMore.

(** ** File materialization: failures, the log line and the result *)

Module UpdateMore.
Import Mx Obs MFacts UpdateFacts.



(** After a call that returns, the file holds the content and every
    other file is as it was; a call that returns [true] has logged one
    line, [created] for a path that did not exist and [modified] for one
    that did, and a call that returns [false] has logged nothing. *)
Theorem update_file_result (path content : string) (st st' : State) (b : bool) :
  update_file path content st = (Return b, st') →
  files st' !! path = Some content
  ∧ (∀ other, other ≠ path → files st' !! other = files st !! other)
  ∧ console st'
    = console st
        ++ (if b then
              [(if bool_decide (is_Some (files st !! path)) then "modified " else "created ")
                 +:+ path]
            else []).
Proof.
  unfold update_file, path_exists, read_file, write_file. unfold_M. cbn beta.
  destruct (files st !! path) as [old|] eqn:Hold.
  - rewrite (bool_decide_eq_true_2 (is_Some (Some old))) by (by eexists).
    rewrite orb_true_l. cbn iota.
    destruct (may_read (host st) path); cbn iota beta; [|done].
    rewrite Hold. cbn iota beta.
    destruct (decide (old = content)) as [->|Hne].
    + rewrite (bool_decide_eq_true_2 (Some content = Some content)) by done.
      cbn iota beta.
      intros [= <- <-]. cbn. split; [done|]. split; [done|]. by rewrite app_nil_r.
    + rewrite (bool_decide_eq_false_2 (Some old = Some content)) by congruence.
      cbn iota beta.
      destruct (may_write _ path && _); cbn iota beta; [|done].
      intros [= <- <-]. cbn. split; [apply lookup_insert_eq|].
      split; [|done]. intros other Ho. by apply lookup_insert_ne.
  - rewrite (bool_decide_eq_false_2 (is_Some None)) by (by intros [? ?]).
    rewrite orb_false_l.
    destruct (bool_decide (path ∈ dirs st)) eqn:Hd; cbn iota.
    + destruct (may_read (host st) path); cbn iota beta; [|done].
      rewrite Hold. cbn iota beta. by rewrite Hd.
    + rewrite (bool_decide_eq_false_2 (None = Some content)) by done. cbn iota beta.
      destruct (may_write _ path && _); cbn iota beta; [|done].
      intros [= <- <-]. cbn. split; [apply lookup_insert_eq|].
      split; [|done]. intros other Ho. by apply lookup_insert_ne.
Qed.

Lemma update_file_result_witness :
  let st := set_files {[ "build.properties" := "a=1" ]}
              (Samples.state0 false (Samples.host_exit 0 "")) in
  ∃ st', update_file "build.properties" "a=2" st = (Return true, st')
         ∧ files st' !! "build.properties" = Some "a=2"
         ∧ console st' = ["modified build.properties"].
Proof.
  intros st.
  pose (r := update_file "build.properties" "a=2" st).
  assert (r = (Return true, snd r)) as H by (vm_compute; reflexivity).
  destruct (update_file_result "build.properties" "a=2" st (snd r) true H)
    as (F & _ & C).
  exists (snd r). split; [exact H|]. split; [exact F|]. exact C.
Defined.

End UpdateMore.

(** ** String primitives *)

Module PyMoreFacts.
Import PyMore.

Lemma contains_empty s : contains s EmptyString = true.
Proof. unfold contains, Py.find. by destruct s. Qed.

Lemma split1_found c k v :
  count_char c k = O → split1 c (k +:+ String c v) = (k, Some v).
Proof.
  induction k as [|a k IH]; intros Hk.
  - change (EmptyString +:+ String c v) with (String c v). cbn [split1].
    by rewrite Ascii.eqb_refl.
  - change (String a k +:+ String c v) with (String a (k +:+ String c v)).
    cbn [split1 count_char] in *.
    destruct (Ascii.eqb a c); [done|]. by rewrite IH.
Qed.

Lemma split1_missing c s :
  count_char c s = O → split1 c s = (s, None).
Proof.
  induction s as [|a s IH]; intros Hs; [done|].
  cbn [split1 count_char] in *.
  destruct (Ascii.eqb a c); [done|]. by rewrite IH.
Qed.

Lemma split_on_length c s : length (split_on c s) = S (count_char c s).
Proof.
  induction s as [|a s IH]; [done|].
  cbn [split_on count_char]. destruct (Ascii.eqb a c); simpl; [by rewrite IH|].
  destruct (split_on c s); simpl in *; lia.
Qed.

Lemma split_on_none c s : count_char c s = O → split_on c s = [s].
Proof.
  induction s as [|a s IH]; intros Hs; [done|].
  cbn [split_on count_char] in *.
  destruct (Ascii.eqb a c); [done|]. by rewrite IH.
Qed.

Lemma split_on_one c k v :
  count_char c k = O → count_char c v = O →
  split_on c (k +:+ String c v) = [k; v].
Proof.
  intros Hk Hv. induction k as [|a k IH].
  - change (EmptyString +:+ String c v) with (String c v). cbn [split_on].
    by rewrite Ascii.eqb_refl, split_on_none.
  - change (String a k +:+ String c v) with (String a (k +:+ String c v)).
    cbn [split_on count_char] in *.
    destruct (Ascii.eqb a c); [done|]. by rewrite IH.
Qed.

End PyMoreFacts.

(** ** Configuration files *)

Module ConfigFacts.
Import Mx MxMore PyMoreFacts.

Section WithExpandvars.
Variable expandvars : string → string.

Lemma load_lines_app override l1 l2 attrs :
  load_lines expandvars override (l1 ++ l2) attrs
  = match load_lines expandvars override l1 attrs with
    | (Return _, attrs1) => load_lines expandvars override l2 attrs1
    | r => r
    end.
Proof.
  revert attrs. induction l1 as [|line l1 IH]; intros attrs; [done|].
  cbn [app load_lines].
  destruct (PyMore.split1 "=" line) as [k [v|]]; [|done].
  cbv zeta. destruct (override || _); apply IH.
Qed.

(** Lines that do not set [k] leave it alone, also when one of them
    raises. *)
Lemma load_lines_other_keys override lines attrs k :
  Forall (λ line, key_of line ≠ Some k) lines →
  snd (load_lines expandvars override lines attrs) !! k = attrs !! k.
Proof.
  intros H. revert attrs. induction H as [|line lines Hk _ IH]; intros attrs; [done|].
  cbn [load_lines]. unfold key_of in Hk.
  destruct (PyMore.split1 "=" line) as [k0 [v|]]; [|done].
  cbv zeta. destruct (override || _); rewrite IH; [|done].
  rewrite lookup_insert_ne; [done|]. congruence.
Qed.

Lemma load_lines_keeps lines attrs k :
  is_Some (attrs !! k) →
  snd (load_lines expandvars false lines attrs) !! k = attrs !! k.
Proof.
  revert attrs. induction lines as [|line lines IH]; intros attrs Hk; [done|].
  cbn [load_lines].
  destruct (PyMore.split1 "=" line) as [k0 [v|]]; [|done].
  cbv zeta. cbn [orb].
  destruct (decide (is_Some (attrs !! PyMore.lower (PyMore.strip k0)))) as [Hs|Hn].
  - rewrite (bool_decide_eq_true_2 _ Hs). cbn [negb]. by apply IH.
  - rewrite (bool_decide_eq_false_2 _ Hn). cbn [negb].
    assert (PyMore.lower (PyMore.strip k0) ≠ k) as Hne
      by (intros E; apply Hn; by rewrite E).
    rewrite IH; [by rewrite lookup_insert_ne|].
    by rewrite lookup_insert_ne.
Qed.

(** Without [override], an attribute that [self] already has keeps its
    value whatever the file says, also when a line raises. *)
Theorem load_config_keeps_attributes (configFile : string)
    (attrs : gmap string attr) (k : string) (st : State) :
  is_Some (attrs !! k) →
  snd (fst (load_config_file expandvars configFile false attrs st)) !! k = attrs !! k.
Proof.
  intros Hk. unfold load_config_file, path_exists, read_file, get.
  destruct (bool_decide _ || bool_decide _); [|done].
  destruct (may_read _ _); [|done].
  destruct (files _ !! configFile) as [data|].
  - by apply load_lines_keeps.
  - by destruct (bool_decide _).
Qed.


(** Without [override], the value of a key that [self] does not have
    yet is that of the first line that sets it. *)
Theorem load_config_first_wins (pre post : list string) (k v : string)
    (attrs attrs1 : gmap string attr) :
  load_lines expandvars false pre attrs = (Return tt, attrs1) →
  PyMore.count_char "=" k = O →
  attrs !! PyMore.lower (PyMore.strip k) = None →
  Forall (λ line, key_of line ≠ Some (PyMore.lower (PyMore.strip k))) pre →
  snd (load_lines expandvars false (pre ++ (k +:+ "=" +:+ v) :: post) attrs)
    !! PyMore.lower (PyMore.strip k)
  = Some (Str (expandvars (PyMore.strip v))).
Proof.
  intros Hpre Hk Hnone Hother. rewrite load_lines_app, Hpre. cbn [load_lines].
  change (k +:+ "=" +:+ v) with (k +:+ String "=" v).
  rewrite (split1_found _ _ _ Hk). cbv zeta. cbn [orb].
  assert (attrs1 !! PyMore.lower (PyMore.strip k) = None) as Hnone1.
  { pose proof (load_lines_other_keys false pre attrs _ Hother) as H.
    rewrite Hpre in H. cbn in H. congruence. }
  rewrite bool_decide_eq_false_2 by (rewrite Hnone1; by intros [? ?]).
  cbn [negb].
  rewrite load_lines_keeps; [apply lookup_insert_eq|].
  rewrite lookup_insert_eq. by eexists.
Qed.

(** A line without [=], a blank line for instance, ends the loading
    with [ValueError]; what the lines before it set stays set. *)
Theorem load_config_malformed_line (override : bool) (pre post : list string)
    (line : string) (attrs attrs1 : gmap string attr) :
  load_lines expandvars override pre attrs = (Return tt, attrs1) →
  PyMore.count_char "=" line = O →
  load_lines expandvars override (pre ++ line :: post) attrs
  = (Raise (ValueError unpack_message), attrs1).
Proof.
  intros Hpre Hline. rewrite load_lines_app, Hpre. cbn [load_lines].
  by rewrite (split1_missing _ _ Hline).
Qed.

End WithExpandvars.

Lemma load_config_keeps_attributes_witness :
  let data := "java_home=/opt/jdk7" +:+ Py.nl +:+ "vmdir=/tmp/vm" +:+ Py.nl in
  let st := set_files {[ "mx.cfg" := data ]}
              (Samples.state0 false (Samples.host_exit 0 "")) in
  let attrs : gmap string attr := {[ "java_home" := Str "/opt/jdk6" ]} in
  let attrs' := snd (fst (load_config_file id "mx.cfg" false attrs st)) in
  attrs' !! "java_home" = Some (Str "/opt/jdk6")
  ∧ attrs' !! "vmdir" = Some (Str "/tmp/vm").
Proof.
  intros data st attrs attrs'. split; [|vm_compute; reflexivity].
  unfold attrs'.
  rewrite (load_config_keeps_attributes id "mx.cfg" attrs "java_home" st);
    [reflexivity | by eexists].
Defined.


Lemma load_config_first_wins_witness :
  snd (load_lines id false
         (["os=linux"]
            ++ ("java_home" +:+ "=" +:+ "/opt/jdk7") :: ["java_home=/opt/jdk8"])
         (∅ : gmap string attr))
    !! "java_home"
  = Some (Str "/opt/jdk7").
Proof.
  apply (load_config_first_wins id ["os=linux"] ["java_home=/opt/jdk8"]
           "java_home" "/opt/jdk7" ∅
           (snd (load_lines id false ["os=linux"] (∅ : gmap string attr))));
    [vm_compute; reflexivity | reflexivity | reflexivity
    | repeat constructor; discriminate].
Defined.

Lemma load_config_malformed_line_witness :
  load_lines id true (["os=linux" +:+ Py.nl] ++ Py.nl :: ["vmdir=/tmp"])
    (∅ : gmap string attr)
  = (Raise (ValueError unpack_message), {[ "os" := Str "linux" ]}).
Proof.
  apply (load_config_malformed_line id true ["os=linux" +:+ Py.nl] ["vmdir=/tmp"]
           Py.nl ∅ {[ "os" := Str "linux" ]});
    [vm_compute; reflexivity | reflexivity].
Defined.

End ConfigFacts.

(** ** Finding GNU make *)

Module GmakeFacts.
Import Mx Obs MxMore MFacts.

(** One candidate: its [--version] is run once; whatever goes wrong is
    swallowed. *)
Lemma gmake_probe_spec a st :
  ∃ r st', gmake_probe a st = (Return r, st')
           ∧ trace st' = trace st ++ [Exec [a; "--version"] None]
           ∧ console st' = console st
           ∧ host st' = host st
           ∧ (r = None ∨ r = Some a)
           ∧ (r = Some a ↔
                ∃ output effect,
                  spawn (host st) (trace st) [a; "--version"] None = Exited 0 output effect
                  ∧ PyMore.contains output "GNU" = true).
Proof.
  unfold gmake_probe, check_output_stdout. unfold_M.
  destruct (spawn (host st) (trace st) [a; "--version"] None)
    as [errno msg|rc output effect]; cbn.
  { eexists _, _. split; [reflexivity|]. repeat split; try done; [by left|].
    - by intros (? & ? & ? & _). }
  destruct (Z.eqb_spec rc 0) as [->|Hrc]; cbn.
  - destruct (PyMore.contains output "GNU") eqn:G; cbn;
      eexists _, _; (split; [reflexivity|]); repeat split; try done;
      try (by left); try (by right).
    + intros _. by eexists _, _.
    + intros (o & e & [= <- <-] & ?). congruence.
  - eexists _, _. split; [reflexivity|]. repeat split; try done; [by left|].
    intros (? & ? & [= ? _ _] & _). done.
Qed.

Lemma gmake_from_found candidates st a st' :
  gmake_from candidates st = (Return a, st') →
  ∃ pre post output effect,
    candidates = pre ++ a :: post
    ∧ trace st' = trace st ++ version_probes (pre ++ [a])
    ∧ spawn (host st) (trace st ++ version_probes pre) [a; "--version"] None
      = Exited 0 output effect
    ∧ PyMore.contains output "GNU" = true.
Proof.
  revert st. induction candidates as [|c cs IH]; intros st; [done|].
  cbn [gmake_from].
  destruct (gmake_probe_spec c st) as (r & st1 & Hp & T & _ & Hh & Hr & Hiff).
  rewrite (bind_Return _ _ _ _ _ Hp).
  destruct Hr as [-> | ->].
  - intros H. apply IH in H as (pre & post & o & e & -> & T' & Hs & G).
    exists (c :: pre), post, o, e. split; [done|].
    rewrite T', T, Hh in *. cbn. rewrite <- !app_assoc in *. cbn in *.
    by repeat split.
  - intros [= <- <-]. destruct (proj1 Hiff eq_refl) as (o & e & Hs & G).
    exists [], cs, o, e. cbn. rewrite app_nil_r. by repeat split.
Qed.

Lemma gmake_from_not_found candidates st e st' :
  gmake_from candidates st = (Raise e, st') →
  e = SystemExit (ExitMsg no_gmake_message)
  ∧ trace st' = trace st ++ version_probes candidates
  ∧ console st' = console st.
Proof.
  revert st. induction candidates as [|c cs IH]; intros st.
  { intros [= <- <-]. cbn. by rewrite app_nil_r. }
  cbn [gmake_from].
  destruct (gmake_probe_spec c st) as (r & st1 & Hp & T & C & _ & Hr & _).
  rewrite (bind_Return _ _ _ _ _ Hp).
  destruct Hr as [-> | ->]; [|done].
  intros H. apply IH in H as (-> & T' & C').
  split; [done|]. rewrite T', T, C', C. cbn. by rewrite <- app_assoc.
Qed.

(** When [gmake_cmd] returns a name, it is one of [make], [gmake] and
    [gnumake]; the candidates before it were each asked for their version
    once, in order, then this one, which exited with zero and printed
    [GNU]; the candidates after it were not started. *)
Theorem gmake_cmd_found (st st' : State) (a : string) :
  gmake_cmd st = (Return a, st') →
  ∃ pre post output effect,
    gmake_candidates = pre ++ a :: post
    ∧ trace st' = trace st ++ version_probes (pre ++ [a])
    ∧ spawn (host st) (trace st ++ version_probes pre) [a; "--version"] None
      = Exited 0 output effect
    ∧ PyMore.contains output "GNU" = true.
Proof. apply gmake_from_found. Qed.

(** [gmake_cmd] raises nothing but the abort with its message, and only
    after all three candidates were tried: a candidate that cannot be
    started or exits non-zero is passed over silently. *)
Theorem gmake_cmd_not_found (st st' : State) (e : exn) :
  gmake_cmd st = (Raise e, st') →
  e = SystemExit (ExitMsg no_gmake_message)
  ∧ trace st' = trace st ++ version_probes gmake_candidates
  ∧ console st' = console st.
Proof. apply gmake_from_not_found. Qed.

Lemma gmake_cmd_found_witness :
  let h := mkHost (λ _ args _,
                     if bool_decide (args = ["gmake"; "--version"])
                     then Exited 0 "GNU Make 3.81" id
                     else if bool_decide (args = ["make"; "--version"])
                     then Exited 0 "usage: make [-f makefile]" id
                     else NotStarted 2 "No such file or directory")
                  (λ _ _, Fails (IOError "unreachable"))
                  (λ _, true) (λ _, true) (λ _, true) (λ _, None) "/maxine/mx" in
  let st := Samples.state0 false h in
  ∃ st', gmake_cmd st = (Return "gmake", st')
         ∧ trace st' = trace st ++ version_probes ["make"; "gmake"].
Proof.
  intros h st.
  pose (r := gmake_cmd st).
  assert (r = (Return "gmake", snd r)) as H by (vm_compute; reflexivity).
  destruct (gmake_cmd_found st (snd r) "gmake" H) as (pre & post & o & e & Hc & T & _).
  exists (snd r). split; [exact H|].
  vm_compute. reflexivity.
Defined.

Lemma gmake_cmd_not_found_witness :
  let h := mkHost (λ _ _ _, NotStarted 2 "No such file or directory")
                  (λ _ _, Fails (IOError "unreachable"))
                  (λ _, true) (λ _, true) (λ _, true) (λ _, None) "/maxine/mx" in
  let st := Samples.state0 false h in
  ∃ st', gmake_cmd st = (Raise (SystemExit (ExitMsg no_gmake_message)), st')
         ∧ trace st' = trace st ++ version_probes gmake_candidates.
Proof.
  intros h st.
  pose (r := gmake_cmd st).
  assert (r = (Raise (SystemExit (ExitMsg no_gmake_message)), snd r)) as H
    by (vm_compute; reflexivity).
  destruct (gmake_cmd_not_found st (snd r) _ H) as (_ & T & _).
  exists (snd r). split; [exact H | exact T].
Defined.

End GmakeFacts.

(** ** The commands: filtering compiler output, collecting configurations,
    excluding files *)

Module CommandsFacts.
Import Mx Obs Commands MFacts PyMoreFacts.

Lemma Filter_feed_app c l1 l2 :
  Filter_feed c (l1 ++ l2)
  = let '(c1, o1) := Filter_feed c l1 in
    let '(c2, o2) := Filter_feed c1 l2 in
    (c2, o1 ++ o2).
Proof.
  revert c. induction l1 as [|line l1 IH]; intros c.
  { cbn. by destruct (Filter_feed c l2). }
  cbn [app Filter_feed]. destruct (Filter_eat c line) as [c' printed].
  rewrite IH. destruct (Filter_feed c' l1) as [c1 o1].
  destruct (Filter_feed c1 l2) as [c2 o2]. by destruct printed.
Qed.

(** When no line mentions the proprietary API, the filter started at
    zero prints every line, in order, without its trailing white
    space. *)
Theorem Filter_prints_plain_lines (lines : list string) :
  Forall (λ line, PyMore.contains line proprietary_marker = false) lines →
  Filter_feed 0 lines = (0, map PyMore.rstrip lines).
Proof.
  intros H. induction H as [|line lines Hl _ IH]; [done|].
  cbn [Filter_feed map]. unfold Filter_eat. rewrite Hl. cbn. by rewrite IH.
Qed.

Lemma Filter_prints_plain_lines_witness :
  Filter_feed 0 ["A.java:3: cannot find symbol  " +:+ Py.nl; "1 error" +:+ Py.nl]
  = (0, ["A.java:3: cannot find symbol"; "1 error"]).
Proof.
  apply (Filter_prints_plain_lines
           ["A.java:3: cannot find symbol  " +:+ Py.nl; "1 error" +:+ Py.nl]).
  repeat constructor.
Defined.

(** A line that mentions the proprietary API is dropped together with
    the two lines after it, whatever the counter was, and the filter is
    back at zero; a further mention among those two lines starts the
    count again. *)
Theorem Filter_drops_warning (c : Z) (warning a b : string) (rest : list string) :
  PyMore.contains warning proprietary_marker = true →
  PyMore.contains a proprietary_marker = false →
  PyMore.contains b proprietary_marker = false →
  Filter_feed c (warning :: a :: b :: rest) = Filter_feed 0 rest
  ∧ ∀ again, PyMore.contains again proprietary_marker = true →
      Filter_feed c (warning :: again :: a :: b :: rest) = Filter_feed 0 rest.
Proof.
  intros Hw Ha Hb. split.
  - cbn [Filter_feed]. unfold Filter_eat. rewrite Hw, Ha, Hb.
    change (2 - 1) with 1. cbn. change (1 - 1) with 0.
    by destruct (Filter_feed 0 rest).
  - intros again Hg. cbn [Filter_feed]. unfold Filter_eat.
    rewrite Hw, Hg, Ha, Hb.
    change (2 - 1) with 1. cbn. change (1 - 1) with 0.
    by destruct (Filter_feed 0 rest).
Qed.

Lemma Filter_drops_warning_witness :
  Filter_feed 0
    ["Signal.java:7: warning: sun.misc.Signal is Sun proprietary API and may be removed";
     "import sun.misc.Signal;"; "               ^"; "1 warning"]
  = (0, ["1 warning"]).
Proof.
  destruct (Filter_drops_warning 0
              "Signal.java:7: warning: sun.misc.Signal is Sun proprietary API and may be removed"
              "import sun.misc.Signal;" "               ^" ["1 warning"]
              ltac:(reflexivity) ltac:(reflexivity) ltac:(reflexivity)) as [H _].
  rewrite H. reflexivity.
Defined.

(** A line with exactly one [#] stores the part after it, without its
    trailing white space, under the part before it, replacing what was
    stored there and leaving the other keys alone; a line with no [#] or
    with more than one raises [ValueError] and stores nothing. *)
Theorem Configs_eat_spec (configs : gmap string string) (line : string) :
  (∀ k v, PyMore.count_char "#" k = O → PyMore.count_char "#" v = O →
          line = k +:+ "#" +:+ v →
          Configs_eat configs line = (Return tt, <[k := PyMore.rstrip v]> configs))
  ∧ (PyMore.count_char "#" line ≠ 1%nat →
     ∃ msg, Configs_eat configs line = (Raise (ValueError msg), configs)).
Proof.
  split.
  - intros k v Hk Hv ->. unfold Configs_eat.
    change (k +:+ "#" +:+ v) with (k +:+ String "#" v).
    by rewrite (split_on_one _ _ _ Hk Hv).
  - intros Hn. unfold Configs_eat.
    pose proof (split_on_length "#" line) as Hlen.
    destruct (PyMore.split_on "#" line) as [|p [|q [|r l]]]; simpl in Hlen;
      try lia; by eexists.
Qed.

(** What the exclusion filter returns and logs: the files that have none
    of the patterns in them, in order, with one line logged for each file
    left out. *)
Lemma exclude_spec patterns javafilelist st :
  exclude patterns javafilelist st
  = (Return (filter (λ name, clear_of patterns name = true) javafilelist),
     fold_left (λ s name, print ("excluding: " +:+ name) s)
       (filter (λ name, clear_of patterns name = false) javafilelist) st).
Proof.
  assert (∀ name s, match_name patterns name s
                    = (Return (negb (clear_of patterns name)),
                       if clear_of patterns name then s
                       else print ("excluding: " +:+ name) s)) as Hm.
  { intros name s. unfold clear_of.
    induction patterns as [|p ps IH]; [done|].
    cbn [match_name forallb]. destruct (PyMore.contains name p); cbn; [done|].
    exact IH. }
  revert st. induction javafilelist as [|name rest IH]; intros st; [done|].
  cbn [exclude]. rewrite (bind_Return _ _ _ _ _ (Hm name st)).
  rewrite (bind_Return _ _ _ _ _ (IH _)). cbn [mret M_ret ret].
  rewrite !filter_cons.
  destruct (clear_of patterns name) eqn:E.
  - rewrite decide_True by done. rewrite decide_False by done. done.
  - rewrite decide_False by done. rewrite decide_True by done. done.
Qed.

(** A file is kept by the exclusion filter of [check] exactly when none
    of the patterns occurs in its path; the files kept stay in order. *)
Theorem exclude_keeps_clear_files (patterns javafilelist : list string) (st : State) :
  ∃ st', exclude patterns javafilelist st
         = (Return (filter (λ name, clear_of patterns name = true) javafilelist), st')
         ∧ console st'
           = console st
               ++ map (λ name, "excluding: " +:+ name)
                    (filter (λ name, clear_of patterns name = false) javafilelist)
         ∧ trace st' = trace st ∧ files st' = files st.
Proof.
  rewrite exclude_spec. eexists. split; [reflexivity|].
  generalize (filter (λ name, clear_of patterns name = false) javafilelist).
  intros l. revert st. induction l as [|x l IH]; intros st.
  { cbn. by rewrite app_nil_r. }
  cbn [fold_left map]. destruct (IH (print ("excluding: " +:+ x) st)) as (C & T & F).
  rewrite C, T, F. cbn. by rewrite <- app_assoc.
Qed.

(** A blank line in [.checkstyle.exclude] gives the empty pattern, which
    occurs in every path: every file is left out. *)
Theorem exclude_blank_line (data : string) (javafilelist : list string) (st : State) :
  EmptyString ∈ exclude_patterns data →
  ∃ st', exclude (exclude_patterns data) javafilelist st = (Return [], st')
         ∧ console st' = console st ++ map (λ name, "excluding: " +:+ name) javafilelist.
Proof.
  intros Hin.
  assert (∀ name, clear_of (exclude_patterns data) name = false) as Hall.
  { intros name. unfold clear_of. apply not_true_is_false. intros Hf.
    rewrite forallb_forall in Hf. apply list_elem_of_In in Hin.
    specialize (Hf _ Hin). by rewrite contains_empty in Hf. }
  rewrite exclude_spec.
  assert (filter (λ name, clear_of (exclude_patterns data) name = true) javafilelist = []
          ∧ filter (λ name, clear_of (exclude_patterns data) name = false) javafilelist
            = javafilelist) as [-> ->].
  { induction javafilelist as [|x l [IH1 IH2]]; [done|].
    rewrite !filter_cons, IH1, IH2.
    rewrite decide_False by (by rewrite Hall). by rewrite decide_True by apply Hall. }
  eexists. split; [reflexivity|].
  clear. revert st. induction javafilelist as [|x l IH]; intros st.
  { cbn. by rewrite app_nil_r. }
  cbn [fold_left map]. rewrite IH. cbn. by rewrite <- app_assoc.
Qed.

Lemma exclude_blank_line_witness :
  let data := "com/sun/max/asm" +:+ Py.nl +:+ Py.nl +:+ "jtt/" +:+ Py.nl in
  exclude_patterns data = ["com/sun/max/asm"; ""; "jtt/"]
  ∧ ∃ st', exclude (exclude_patterns data) ["src/A.java"; "src/B.java"]
             (Samples.state0 false (Samples.host_exit 0 ""))
           = (Return [], st').
Proof.
  intros data. split; [vm_compute; reflexivity|].
  destruct (exclude_blank_line data ["src/A.java"; "src/B.java"]
              (Samples.state0 false (Samples.host_exit 0 ""))) as (st' & H & _).
  - vm_compute. apply list_elem_of_In. simpl. tauto.
  - by exists st'.
Defined.

End CommandsFacts.

(** ** Running GraalVM, and the default Java home *)

Module GraalFacts.
Import Mx Obs MxMore MFacts.

(** A VM that answers the version query without naming itself a Graal
    VM is turned away by the abort for an error raised by the query: the
    abort that says what was missing from the output is caught by the
    bare [except] around it.  The same abort ends every other failure of
    the query, so no exception of the child leaves [run_graalvm]. *)
Theorem run_graalvm_rejects (graalvm GRAALVM : option string) (os g : string)
    (args : list string) (fatal : bool) (out err : option sink)
    (cwd : option string) (st : State) :
  resolve_graalvm graalvm GRAALVM = Some g →
  path_exists (graalvm_exe g os) st = (Return true, st) →
  (∀ output effect,
      spawn (host st) (trace st) (graal_version_cmd (graalvm_exe g os)) None
        = Exited 0 output effect →
      PyMore.contains output "Graal VM" = false) →
  ∃ st', run_graalvm graalvm GRAALVM os args fatal out err cwd st
         = (Raise (SystemExit (ExitMsg (graal_error_message (graalvm_exe g os)))), st')
         ∧ trace st' = trace st ++ [Exec (graal_version_cmd (graalvm_exe g os)) None]
         ∧ console st' = console st.
Proof.
  intros Hg Hex Hprobe. unfold run_graalvm. rewrite Hg.
  rewrite (bind_Return _ _ _ _ _ Hex). cbn [negb when].
  unfold mbind at 1, M_bind at 1, bind at 1. unfold ret at 1.
  unfold check_output, popen_wait. unfold_M.
  destruct (spawn _ _ _ _) as [errno msg|rc output effect] eqn:Hc; cbn.
  { eexists. by repeat split. }
  destruct (Z.eqb_spec rc 0) as [->|Hrc]; cbn.
  - rewrite (Hprobe output effect eq_refl). cbn. eexists. by repeat split.
  - eexists. by repeat split.
Qed.

Lemma run_graalvm_rejects_witness :
  let st := set_files {[ "/opt/graal/bin/java" := "" ]}
              (Samples.state0 false
                 (Samples.host_exit 0 (Samples.banner "1.7.0_05"))) in
  ∃ st', run_graalvm None (Some "/opt/graal") "linux" ["-version"] true None None None st
         = (Raise (SystemExit (ExitMsg (graal_error_message "/opt/graal/bin/java"))), st').
Proof.
  intros st.
  destruct (run_graalvm_rejects None (Some "/opt/graal") "linux" "/opt/graal"
              ["-version"] true None None None st
              ltac:(reflexivity) ltac:(vm_compute; reflexivity)) as (st' & H & _).
  - intros output effect [= <- _]. vm_compute. reflexivity.
  - by exists st'.
Defined.

(** When the executable exists and answers the version query with zero
    and [Graal VM] in its output, [run_graalvm] is [run] on the
    executable, [-graal], the debugger options when [java_dbg] is set, and
    [args]. *)
Theorem run_graalvm_runs (graalvm GRAALVM : option string) (os g : string)
    (args : list string) (fatal : bool) (out err : option sink)
    (cwd : option string) (st : State) (output : string)
    (effect : gmap string string → gmap string string) :
  resolve_graalvm graalvm GRAALVM = Some g →
  path_exists (graalvm_exe g os) st = (Return true, st) →
  spawn (host st) (trace st) (graal_version_cmd (graalvm_exe g os)) None
    = Exited 0 output effect →
  PyMore.contains output "Graal VM" = true →
  run_graalvm graalvm GRAALVM os args fatal out err cwd st
  = run (([graalvm_exe g os; "-graal"]
            ++ if java_dbg (self st) then debug_args else []) ++ args)
        fatal out err cwd
        (after_child (graal_version_cmd (graalvm_exe g os)) effect st).
Proof.
  intros Hg Hex Hc Hout. unfold run_graalvm. rewrite Hg.
  rewrite (bind_Return _ _ _ _ _ Hex). cbn [negb when].
  unfold mbind at 1, M_bind at 1, bind at 1. unfold ret at 1.
  unfold check_output, popen_wait, after_child.
  unfold mbind at 1, M_bind at 1, bind at 1.
  unfold catch at 1. unfold_M. rewrite Hc. cbn. by rewrite Hout.
Qed.

Lemma run_graalvm_runs_witness :
  let st := set_files {[ "/opt/graal/bin/java.exe" := "" ]}
              (Samples.state0 false
                 (Samples.host_exit 0 "OpenJDK 64-Bit Graal VM (build 1.7)")) in
  ∃ st', run_graalvm (Some "/opt/graal") None "windows" ["-version"] true None None None st
         = (Return 0, st')
         ∧ trace st' = [Exec (graal_version_cmd "/opt/graal/bin/java.exe") None;
                        Exec ["/opt/graal/bin/java.exe"; "-graal"; "-version"] None].
Proof.
  intros st. eexists.
  rewrite (run_graalvm_runs (Some "/opt/graal") None "windows" "/opt/graal"
             ["-version"] true None None None st
             "OpenJDK 64-Bit Graal VM (build 1.7)" id
             ltac:(reflexivity) ltac:(vm_compute; reflexivity) ltac:(reflexivity)
             ltac:(vm_compute; reflexivity)).
  split; vm_compute; reflexivity.
Defined.

Lemma first_existing_spec candidates st :
  ∃ res, first_existing candidates st = (Return res, st)
         ∧ match res with
           | Some p =>
               ∃ pre post, candidates = pre ++ p :: post
                           ∧ path_exists p st = (Return true, st)
                           ∧ Forall (λ q, path_exists q st = (Return false, st)) pre
           | None => Forall (λ q, path_exists q st = (Return false, st)) candidates
           end.
Proof.
  induction candidates as [|p rest IH].
  { exists None. by split. }
  cbn [first_existing]. unfold mbind, M_bind, bind.
  destruct (path_exists p st) as [r st0] eqn:Hp.
  assert (st0 = st ∧ ∃ b, r = Return b) as [-> [b ->]].
  { revert Hp. unfold path_exists, get. intros [= <- <-]. eauto. }
  destruct b.
  - exists (Some p). split; [done|]. exists [], rest. by repeat split.
  - destruct IH as (res & -> & Hres). exists res. split; [done|].
    destruct res as [q|].
    + destruct Hres as (pre & post & -> & Hq & Hpre).
      exists (p :: pre), post. repeat split; try done. by constructor.
    + by constructor.
Qed.

(** [default_java_home] touches nothing.  With [JAVA_HOME] set it
    returns that value without looking at the file system; without, it
    returns the first of its three candidates that exists, and nothing
    exactly when none exists. *)
Theorem default_java_home_spec (JAVA_HOME : option string) (st : State) :
  ∃ res, default_java_home JAVA_HOME st = (Return res, st)
         ∧ match JAVA_HOME, res with
           | Some javaHome, _ => res = Some javaHome
           | None, Some p =>
               ∃ pre post, java_home_candidates = pre ++ p :: post
                           ∧ path_exists p st = (Return true, st)
                           ∧ Forall (λ q, path_exists q st = (Return false, st)) pre
           | None, None =>
               Forall (λ q, path_exists q st = (Return false, st)) java_home_candidates
           end.
Proof.
  destruct JAVA_HOME as [javaHome|].
  - by exists (Some javaHome).
  - apply first_existing_spec.
Qed.

End GraalFacts.
